(** * Repository intelligence pipeline: extraction, annotation and graphs

    A shallow embedding of the static extraction loop ([static_parser.py]),
    the rule-based annotator ([semantic_inference.py]) and the three graph
    builders ([graph_builder.py]), with the properties their specification
    states about them.

    Conventions of the embedding.
    - Python [str] is [string]; texts are taken to be ASCII, so [lower],
      [upper] and [repr] act on the ASCII range and leave other characters
      as they are.
    - A Python [dict] whose iteration order is observed ([module_names],
      [components]) is an association list in insertion order; the adjacency
      dictionaries, which callers only look up by key, are [gmap]s.
    - A Python [set] iterates in an order the language does not fix; every
      function that iterates over one takes that order as [set_list].
    - Library calls that can raise (the syntax-tree parser, the diagram
      toolchain) are parameters returning a [result]. *)

From Stdlib Require Import String Ascii List ZArith Bool Lia Permutation.
From Stdlib Require Import DecimalString.
From stdpp Require Import base option list gmap strings.

Import ListNotations.
Local Open Scope string_scope.
Local Open Scope list_scope.

(** ** Python string operations *)

Module PyStr.

Definition is_upper (c : ascii) : bool :=
  let n := nat_of_ascii c in Nat.leb 65 n && Nat.leb n 90.

Definition is_lower (c : ascii) : bool :=
  let n := nat_of_ascii c in Nat.leb 97 n && Nat.leb n 122.

Definition lower_char (c : ascii) : ascii :=
  if is_upper c then ascii_of_nat (nat_of_ascii c + 32) else c.

Definition upper_char (c : ascii) : ascii :=
  if is_lower c then ascii_of_nat (nat_of_ascii c - 32) else c.

Fixpoint map_chars (f : ascii -> ascii) (s : string) : string :=
  match s with
  | EmptyString => EmptyString
  | String c t => String (f c) (map_chars f t)
  end.

(** [s.lower()] and [s.upper()]. *)
Definition lower (s : string) : string := map_chars lower_char s.
Definition upper (s : string) : string := map_chars upper_char s.

(** [s.startswith(p)]. *)
Fixpoint startswith (p s : string) : bool :=
  match p, s with
  | EmptyString, _ => true
  | String _ _, EmptyString => false
  | String a p', String b s' => Ascii.eqb a b && startswith p' s'
  end.

(** [needle in hay]. *)
Fixpoint contains (needle hay : string) : bool :=
  startswith needle hay ||
  match hay with
  | EmptyString => false
  | String _ t => contains needle t
  end.

(** [s.endswith(suf)]. *)
Fixpoint endswith (suf s : string) : bool :=
  String.eqb s suf ||
  match s with
  | EmptyString => false
  | String _ t => endswith suf t
  end.

(** [s.endswith((suf1, suf2, ...))]. *)
Definition endswith_any (sufs : list string) (s : string) : bool :=
  existsb (fun suf => endswith suf s) sufs.

(** [s.split(sep)] for a one-character separator. *)
Fixpoint split (sep : ascii) (s : string) : list string :=
  match s with
  | EmptyString => [EmptyString]
  | String c t =>
      if Ascii.eqb c sep then EmptyString :: split sep t
      else match split sep t with
           | h :: r => String c h :: r
           | [] => [String c EmptyString]
           end
  end.

(** [s.split(sep)[0]], [s.split(sep)[-1]]; the latter is also
    [s.rsplit(sep, 1)[-1]]. *)
Definition split_first (sep : ascii) (s : string) : string :=
  List.hd EmptyString (split sep s).
Definition split_last (sep : ascii) (s : string) : string :=
  List.last (split sep s) EmptyString.

(** [s.replace(a, b)] for one-character [a] and [b]. *)
Definition replace (a b : ascii) (s : string) : string :=
  map_chars (fun c => if Ascii.eqb c a then b else c) s.

(** [s[n:]] and [s[:n]]. *)
Fixpoint drop (n : nat) (s : string) : string :=
  match n, s with
  | O, _ => s
  | S _, EmptyString => EmptyString
  | S n', String _ t => drop n' t
  end.

Fixpoint take (n : nat) (s : string) : string :=
  match n, s with
  | O, _ => EmptyString
  | S _, EmptyString => EmptyString
  | S n', String c t => String c (take n' t)
  end.

(** ASCII white space, as [str.strip()] removes it. *)
Definition is_space (c : ascii) : bool :=
  let n := nat_of_ascii c in
  Nat.eqb n 32 || (Nat.leb 9 n && Nat.leb n 13) || (Nat.leb 28 n && Nat.leb n 31).

Fixpoint lstrip (s : string) : string :=
  match s with
  | EmptyString => EmptyString
  | String c t => if is_space c then lstrip t else s
  end.

Fixpoint rstrip (s : string) : string :=
  match s with
  | EmptyString => EmptyString
  | String c t =>
      match rstrip t with
      | EmptyString => if is_space c then EmptyString else String c EmptyString
      | t' => String c t'
      end
  end.

Definition strip (s : string) : string := rstrip (lstrip s).

(** [sep.join(parts)]. *)
Fixpoint join (sep : string) (parts : list string) : string :=
  match parts with
  | [] => EmptyString
  | [p] => p
  | p :: rest => p +:+ sep +:+ join sep rest
  end.

(** Truthiness of a string: non-empty. *)
Definition truthy (s : string) : bool :=
  match s with EmptyString => false | _ => true end.

(** [str(n)] for a natural number and for an integer. *)
Definition str_nat (n : nat) : string := NilZero.string_of_uint (Nat.to_uint n).
Definition str_Z (z : Z) : string := NilZero.string_of_int (Z.to_int z).

(** *** [repr] of a string *)

Definition hex_digit (n : nat) : ascii :=
  if Nat.ltb n 10 then ascii_of_nat (48 + n) else ascii_of_nat (87 + n).

Definition escape_char (quote c : ascii) : string :=
  let n := nat_of_ascii c in
  if Ascii.eqb c "\" then "\\"
  else if Ascii.eqb c quote then String "\" (String c EmptyString)
  else if Nat.eqb n 9 then "\t"
  else if Nat.eqb n 10 then "\n"
  else if Nat.eqb n 13 then "\r"
  else if Nat.ltb n 32 || Nat.eqb n 127 then
    String "\" (String "x" (String (hex_digit (n / 16))
                                (String (hex_digit (n mod 16)) EmptyString)))
  else String c EmptyString.

Fixpoint escape (quote : ascii) (s : string) : string :=
  match s with
  | EmptyString => EmptyString
  | String c t => escape_char quote c +:+ escape quote t
  end.

(** [repr(s)]: single quotes unless the text has a single quote and no
    double quote. *)
Definition repr (s : string) : string :=
  let q : ascii :=
    if contains "'" s && negb (contains (String (ascii_of_nat 34) EmptyString) s)
    then ascii_of_nat 34 else "'"%char in
  String q (escape q s +:+ String q EmptyString).

(** [str(l)] for a list whose items are already printed. *)
Definition str_list (items : list string) : string :=
  "[" +:+ join ", " items +:+ "]".

(** [str(l)] for a list of strings. *)
Definition repr_list (l : list string) : string := str_list (map repr l).

End PyStr.

(** ** Exceptions *)

Inductive exn : Type :=
| SyntaxError
| OtherException (msg : string).

Inductive result (A : Type) : Type :=
| Ok (a : A)
| Raise (e : exn).

Arguments Ok {A} a.
Arguments Raise {A} e.

(** ** Data model: the dictionaries the extractors produce *)

(** A function entry: [name] is always there, the other keys depend on the
    extractor that produced the entry. *)
Record FunctionDict : Type := mkFunction {
  fn_name : string;
  fn_decorators : option (list string);
  fn_is_async : option bool;
  fn_line : option Z;
  fn_description : option string
}.

(** The annotator accepts both dictionaries and bare names
    ([isinstance(func, dict)]). *)
Inductive FunctionEntry : Type :=
| FnDict (d : FunctionDict)
| FnName (s : string).

Record ClassDict : Type := mkClass {
  cls_name : string;
  cls_bases : option (list string);
  cls_decorators : option (list string);
  cls_line : option Z;
  cls_extends : option string
}.

Record RouteDict : Type := mkRoute {
  rt_method : option string;
  rt_path : option string;
  rt_function : option string;
  rt_decorator : option string;
  rt_line : option Z
}.

(** Keys that hold lists are read everywhere with [.get(key, [])], so an
    absent key and an empty list are the same thing here. *)
Record FileAnalysis : Type := mkAnalysis {
  file_path : string;
  language : string;
  classes : list ClassDict;
  functions : list FunctionEntry;
  components : list string;
  imports : list string;
  routes : list RouteDict;
  decorators : list string;
  exports : list string;
  hooks : list string;
  react_hooks : list string
}.

Record SourceFile : Type := mkSource {
  path : string;
  content : option string
}.

(** ** Insertion-ordered dictionaries *)

Fixpoint dict_set {V : Type} (k : string) (v : V) (d : list (string * V)) : list (string * V) :=
  match d with
  | [] => [(k, v)]
  | (k', v') :: rest =>
      if String.eqb k' k then (k, v) :: rest else (k', v') :: dict_set k v rest
  end.

Definition dict_keys {V : Type} (d : list (string * V)) : list string := map fst d.

(** [x in l] for a list of strings. *)
Definition mem_str (x : string) (l : list string) : bool := existsb (String.eqb x) l.

(** ** Graph builder *)

Module GraphBuilder.

(** The part of a [graphviz.Digraph] the builders fill in: nodes with their
    labels, and edges. *)
Record Digraph : Type := mkDigraph {
  dg_name : string;
  dg_nodes : list (string * string);
  dg_edges : list (string * string)
}.

Definition dot_node (id label : string) (dot : Digraph) : Digraph :=
  {| dg_name := dg_name dot; dg_nodes := dg_nodes dot ++ [(id, label)]; dg_edges := dg_edges dot |}.

Definition dot_edge (src dst : string) (dot : Digraph) : Digraph :=
  {| dg_name := dg_name dot; dg_nodes := dg_nodes dot; dg_edges := dg_edges dot ++ [(src, dst)] |}.

(** A fresh [graphviz.Digraph(name, ...)]. *)
Definition new_digraph (name : string) : Digraph :=
  {| dg_name := name; dg_nodes := []; dg_edges := [] |}.

(** The diagram toolchain and the file system it writes to.  [gv_new] tells
    whether the [graphviz.Digraph(...)] constructor raises, [gv_render] is
    [dot.render], which gives the files that exist afterwards. *)
Record Graphviz : Type := mkGraphviz {
  gv_new : string -> result unit;
  gv_mkdtemp : string -> result string;
  gv_render : Digraph -> string -> result (string -> bool)
}.

Definition Adjacency : Type := gmap string (list string).

(** [adjacency[k].append(v)]. *)
Definition adjacency_append (k v : string) (adjacency : gmap string (list string)) : gmap string (list string) :=
  alter (fun succs => succs ++ [v]) k adjacency.

(** *** Utilities *)

Definition module_extensions : list string :=
  [".py"; ".js"; ".ts"; ".tsx"; ".jsx"; ".java"; ".go"; ".cs"; ".php"; ".cpp"].

Fixpoint strip_extension (exts : list string) (name : string) : string :=
  match exts with
  | [] => name
  | ext :: rest =>
      if PyStr.endswith ext name
      then PyStr.take (String.length name - String.length ext) name
      else strip_extension rest name
  end.

Definition _path_to_module (path : string) : string :=
  strip_extension module_extensions (PyStr.replace "\" "." (PyStr.replace "/" "." path)).

Definition last_two (parts : list string) : list string :=
  skipn (List.length parts - 2) parts.

Definition _shorten_label (name : string) : string :=
  if Nat.leb (String.length name) 25 then name
  else
    let parts := PyStr.split "." name in
    if Nat.ltb 2 (List.length parts) then "..." +:+ PyStr.join "." (last_two parts)
    else PyStr.take 22 name +:+ "...".

Definition _render_graph (gv : Graphviz) (dot : Digraph) (name : string) : option string :=
  match gv_mkdtemp gv "repo_intel_" with
  | Raise _ => None
  | Ok tmp_dir =>
      let filepath := tmp_dir +:+ "/" +:+ name in
      match gv_render gv dot filepath with
      | Raise _ => None
      | Ok exists_ =>
          let png_path := filepath +:+ ".png" in
          if exists_ png_path then Some png_path else None
      end
  end.

(** The [seen_edges] loop shared by the module and component diagrams. *)
Definition draw_edge_once (display : list string) (src dst : string)
    (st : gset (string * string) * Digraph) : gset (string * string) * Digraph :=
  let '(seen_edges, dot) := st in
  if mem_str src display && mem_str dst display then
    if bool_decide ((src, dst) ∈ seen_edges) then st
    else ({[ (src, dst) ]} ∪ seen_edges, dot_edge src dst dot)
  else st.

(** *** Module dependency graph *)

Definition import_base (imp : string) : string :=
  let imp_base := if PyStr.contains "." imp then PyStr.split_first "." imp else imp in
  PyStr.replace "\" "." (PyStr.replace "/" "." imp_base).

Definition module_matches (imp_base mod_name : string) : bool :=
  let mod_base := if PyStr.contains "." mod_name then PyStr.split_last "." mod_name else mod_name in
  String.eqb imp_base mod_base || PyStr.contains imp_base mod_name.

Definition ModuleState : Type := (list (string * string) * gmap string (list string))%type.

(** The inner [for mod_name in module_names] loop with its [break]. *)
Fixpoint scan_modules (imp_base source_module : string) (mods : list string)
    (st : ModuleState) : ModuleState :=
  match mods with
  | [] => st
  | mod_name :: rest =>
      if module_matches imp_base mod_name then
        if negb (String.eqb mod_name source_module)
        then (fst st ++ [(source_module, mod_name)], adjacency_append source_module mod_name (snd st))
        else st
      else scan_modules imp_base source_module rest st
  end.

Definition module_names (source_analysis : list FileAnalysis) : list (string * string) :=
  fold_left (fun d analysis => dict_set (_path_to_module (file_path analysis)) (file_path analysis) d)
            source_analysis [].

Definition module_file_step (mods : list string) (st : ModuleState) (analysis : FileAnalysis) : ModuleState :=
  let source_module := _path_to_module (file_path analysis) in
  fold_left (fun st imp => scan_modules (import_base imp) source_module mods st)
            (imports analysis)
            (fst st, <[source_module := []]> (snd st)).

Definition module_edges_adjacency (source_analysis : list FileAnalysis) : ModuleState :=
  fold_left (module_file_step (dict_keys (module_names source_analysis))) source_analysis ([], ∅).

Definition module_adjacency (source_analysis : list FileAnalysis) : gmap string (list string) :=
  snd (module_edges_adjacency source_analysis).

Section WithSetOrder.

(** The order in which a set built from the given items is iterated. *)
Variable set_list : list string -> list string.

Definition module_dot (source_analysis : list FileAnalysis) : Digraph :=
  let nodes := map (fun analysis => _path_to_module (file_path analysis)) source_analysis in
  let display_nodes := firstn 40 (set_list nodes) in
  let dot := fold_left (fun dot node => dot_node node (_shorten_label node) dot) display_nodes
                       (new_digraph "Module Dependencies") in
  snd (fold_left (fun st e => draw_edge_once display_nodes (fst e) (snd e) st)
                 (fst (module_edges_adjacency source_analysis)) (∅, dot)).

Definition build_module_dependency_graph (gv : Graphviz) (source_analysis : list FileAnalysis)
    : result (option string * gmap string (list string)) :=
  let adjacency := module_adjacency source_analysis in
  match source_analysis with
  | [] => Ok (None, ∅)
  | _ =>
      match gv_new gv "Module Dependencies" with
      | Raise e => Raise e
      | Ok _ =>
          Ok (_render_graph gv (module_dot source_analysis) "module_dependencies", adjacency)
      end
  end.

(** *** Route flow graph *)

Definition collect_routes (source_analysis : list FileAnalysis) : list (string * RouteDict) :=
  flat_map (fun analysis =>
              map (fun route => (_path_to_module (file_path analysis), route)) (routes analysis))
           source_analysis.

Definition route_method (route : RouteDict) : string := default "" (rt_method route).

Definition route_path (route : RouteDict) : string :=
  match rt_path route with
  | Some p => p
  | None => default "" (rt_decorator route)
  end.

Definition route_label (route : RouteDict) : string :=
  let method := route_method route in
  let path := route_path route in
  if PyStr.truthy method then method +:+ " " +:+ path else path.

Definition newline : string := String (ascii_of_nat 10) EmptyString.

Definition route_step (st : Digraph * gmap string (list string))
    (entry : nat * (string * RouteDict)) : Digraph * gmap string (list string) :=
  let '(dot, adjacency) := st in
  let '(i, (file_mod, route)) := entry in
  let func := default "" (rt_function route) in
  let node_id := "route_" +:+ PyStr.str_nat i in
  let label := route_label route in
  let dot := dot_node node_id label dot in
  let dot :=
    if PyStr.truthy func then
      let handler_id := "handler_" +:+ PyStr.str_nat i in
      dot_edge node_id handler_id
        (dot_node handler_id (func +:+ "()" +:+ newline +:+ file_mod) dot)
    else dot in
  let dot := dot_edge "API_Gateway" node_id dot in
  (dot, adjacency_append "API_Gateway" label adjacency).

Definition enumerate {A : Type} (l : list A) : list (nat * A) :=
  combine (seq 0 (List.length l)) l.

(** The loop [for i, route in enumerate(routes[:30])]. *)
Definition route_loop (all_routes : list (string * RouteDict))
    : Digraph * gmap string (list string) :=
  fold_left route_step (enumerate (firstn 30 all_routes))
            (dot_node "API_Gateway" "API Gateway" (new_digraph "API Routes"),
             {[ "API_Gateway" := [] ]}).

Definition build_route_flow_graph (gv : Graphviz) (source_analysis : list FileAnalysis)
    : result (option string * gmap string (list string)) :=
  let all_routes := collect_routes source_analysis in
  match all_routes with
  | [] => Ok (None, ∅)
  | _ =>
      match gv_new gv "API Routes" with
      | Raise e => Raise e
      | Ok _ =>
          let '(dot, adjacency) := route_loop all_routes in
          Ok (_render_graph gv dot "api_routes", adjacency)
      end
  end.

(** *** Component graph *)

Record ComponentData : Type := mkComponent {
  comp_file : string;
  comp_hooks : list string;
  comp_imports : list string
}.

Definition ComponentState : Type :=
  (list (string * ComponentData) * gmap string (list string))%type.

Definition register_components (st : ComponentState) (analysis : FileAnalysis) : ComponentState :=
  fold_left (fun st comp =>
               (dict_set comp {| comp_file := _path_to_module (file_path analysis);
                                 comp_hooks := react_hooks analysis;
                                 comp_imports := imports analysis |} (fst st),
                <[comp := []]> (snd st)))
            (components analysis) st.

Definition collect_components (source_analysis : list FileAnalysis) : ComponentState :=
  fold_left register_components source_analysis ([], ∅).

Definition component_import_base (imp : string) : string :=
  if PyStr.contains "/" imp then PyStr.split_last "/" imp else imp.

(** The loop [for other_comp in comp_names] for one import of one component. *)
Definition link_import (comp_name : string) (comp_names : list string) (imp : string)
    (adjacency : gmap string (list string)) : gmap string (list string) :=
  let imp_base := component_import_base imp in
  fold_left (fun adjacency other_comp =>
               if negb (String.eqb other_comp comp_name)
                  && String.eqb (PyStr.lower other_comp) (PyStr.lower imp_base)
               then adjacency_append comp_name other_comp adjacency
               else adjacency)
            comp_names adjacency.

Definition link_component (comp_names : list string) (adjacency : gmap string (list string))
    (item : string * ComponentData) : gmap string (list string) :=
  fold_left (fun adjacency imp => link_import (fst item) comp_names imp adjacency)
            (comp_imports (snd item)) adjacency.

Definition component_adjacency (source_analysis : list FileAnalysis) : gmap string (list string) :=
  let '(comps, adjacency) := collect_components source_analysis in
  let comp_names := set_list (dict_keys comps) in
  fold_left (link_component comp_names) comps adjacency.

Definition component_label (comp_name : string) (comp : ComponentData) : string :=
  let hooks_str := PyStr.join ", " (firstn 3 (comp_hooks comp)) in
  let label := "<" +:+ comp_name +:+ "/>" in
  if PyStr.truthy hooks_str then label +:+ newline +:+ "[" +:+ hooks_str +:+ "]" else label.

Definition component_dot (source_analysis : list FileAnalysis) : Digraph :=
  let comps := fst (collect_components source_analysis) in
  let adjacency := component_adjacency source_analysis in
  let display := firstn 30 comps in
  let display_comps := dict_keys display in
  let dot := fold_left (fun dot item => dot_node (fst item) (component_label (fst item) (snd item)) dot)
                       display (new_digraph "React Components") in
  snd (fold_left (fun st comp_name =>
                    fold_left (fun st child => draw_edge_once display_comps comp_name child st)
                              (default [] (adjacency !! comp_name)) st)
                 display_comps (∅, dot)).

Definition build_component_graph (gv : Graphviz) (source_analysis : list FileAnalysis)
    : result (option string * gmap string (list string)) :=
  match fst (collect_components source_analysis) with
  | [] => Ok (None, ∅)
  | _ =>
      match gv_new gv "React Components" with
      | Raise e => Raise e
      | Ok _ =>
          Ok (_render_graph gv (component_dot source_analysis) "component_graph",
              component_adjacency source_analysis)
      end
  end.

(** *** All graphs *)

Record GraphEntry : Type := mkEntry {
  png : option string;
  adjacency : gmap string (list string)
}.

Record AllGraphs : Type := mkGraphs {
  module_dependency : GraphEntry;
  api_routes : GraphEntry;
  component_graph : GraphEntry
}.

Definition empty_entry : GraphEntry := {| png := None; adjacency := ∅ |}.

(** [try: png, adj = build(...); result[key] = {...} except Exception: pass],
    starting from the entry [result[key]] already holds. *)
Definition try_build (attempt : result (option string * gmap string (list string)))
    (current : GraphEntry) : GraphEntry :=
  match attempt with
  | Ok (p, adj) => {| png := p; adjacency := adj |}
  | Raise _ => current
  end.

Definition build_all_graphs (gv : Graphviz) (source_analysis : list FileAnalysis) : AllGraphs :=
  let result := {| module_dependency := empty_entry; api_routes := empty_entry;
                   component_graph := empty_entry |} in
  let result := {| module_dependency :=
                     try_build (build_module_dependency_graph gv source_analysis)
                               (module_dependency result);
                   api_routes := api_routes result;
                   component_graph := component_graph result |} in
  let result := {| module_dependency := module_dependency result;
                   api_routes :=
                     try_build (build_route_flow_graph gv source_analysis) (api_routes result);
                   component_graph := component_graph result |} in
  let result := {| module_dependency := module_dependency result;
                   api_routes := api_routes result;
                   component_graph :=
                     try_build (build_component_graph gv source_analysis)
                               (component_graph result) |} in
  result.

End WithSetOrder.

End GraphBuilder.

(** ** Static parser *)

Module StaticParser.

(** *** The syntax tree of the [ast] library, as far as the extractor reads it *)

(** Expressions in base-class and decorator position.  [Call] keeps the
    printed form of its arguments, [OtherExpr] the printed form of the whole
    node. *)
Inductive expr : Type :=
| Name (id : string)
| Attribute (value : expr) (attr : string)
| Call (func : expr) (arguments : string)
| OtherExpr (dump : string).

Inductive node_kind : Type :=
| ClassDef (name : string) (bases decorator_list : list expr) (lineno : Z)
| FunctionDef (name : string) (decorator_list : list expr) (lineno : Z) (docstring : option string)
| AsyncFunctionDef (name : string) (decorator_list : list expr) (lineno : Z) (docstring : option string)
| Import (names : list string)
| ImportFrom (module : option string) (names : list string)
| OtherNode.

(** A node with its child nodes in [ast.iter_child_nodes] order; children
    that hold no definition or import may be left out. *)
#[warnings="-register-all"]
Inductive node : Type :=
| Node (kind : node_kind) (children : list node).

Definition node_kind_of (n : node) : node_kind := match n with Node k _ => k end.

(** [ast.dump] on the node kinds above. *)
Fixpoint ast_dump (e : expr) : string :=
  match e with
  | Name id => "Name(id=" +:+ PyStr.repr id +:+ ", ctx=Load())"
  | Attribute value attr =>
      "Attribute(value=" +:+ ast_dump value +:+ ", attr=" +:+ PyStr.repr attr +:+ ", ctx=Load())"
  | Call func arguments => "Call(func=" +:+ ast_dump func +:+ arguments +:+ ")"
  | OtherExpr dump => dump
  end.

(** [ast.walk]: breadth first, a queue that takes the children of each node
    as it is visited; that is, level by level. *)
Fixpoint zip_levels (a b : list (list node)) : list (list node) :=
  match a, b with
  | [], _ => b
  | _, [] => a
  | x :: a', y :: b' => (x ++ y) :: zip_levels a' b'
  end.

Fixpoint levels (n : node) : list (list node) :=
  match n with
  | Node _ children => [n] :: fold_right zip_levels [] (map levels children)
  end.

Definition ast_walk (tree : node) : list node := concat (levels tree).

(** *** Python extractor *)

Fixpoint decorator_parts (current : expr) : list string :=
  match current with
  | Attribute value attr => attr :: decorator_parts value
  | Name id => [id]
  | _ => []
  end.

Definition _get_decorator_string (e : expr) : string :=
  PyStr.join "." (rev (decorator_parts e)).

Definition class_bases (bases : list expr) : list string :=
  flat_map (fun base =>
              match base with
              | Name id => [id]
              | Attribute _ _ => [ast_dump base]
              | _ => []
              end) bases.

Definition class_decorators (decorator_list : list expr) : list string :=
  flat_map (fun dec =>
              match dec with
              | Name id => [id]
              | Attribute _ _ => [ast_dump dec]
              | Call (Name id) _ => [id]
              | Call (Attribute _ _ as func) _ => [ast_dump func]
              | _ => []
              end) decorator_list.

Definition function_decorators (decorator_list : list expr) : list string :=
  flat_map (fun dec =>
              match dec with
              | Name id => [id]
              | Call (Name id) _ => [id]
              | Attribute _ _ => [_get_decorator_string dec]
              | Call (Attribute _ _ as func) _ => [_get_decorator_string func]
              | _ => []
              end) decorator_list.

Definition route_markers : list string :=
  [".get"; ".post"; ".put"; ".delete"; ".patch"; ".route"].

Definition is_route_decorator (dec_str : string) : bool :=
  existsb (fun method => PyStr.contains method (PyStr.lower dec_str)) route_markers.

(** [docstring.strip().split('\n')[0][:200]] when there is a docstring,
    then [docstring or ""]. *)
Definition function_description (docstring : option string) : string :=
  match docstring with
  | Some d =>
      if PyStr.truthy d
      then PyStr.take 200 (PyStr.split_first (ascii_of_nat 10) (PyStr.strip d))
      else ""
  | None => ""
  end.

Definition empty_python_result (file_path : string) : FileAnalysis :=
  {| file_path := file_path; language := "Python"; classes := []; functions := [];
     components := []; imports := []; routes := []; decorators := [];
     exports := []; hooks := []; react_hooks := [] |}.

Definition visit_function (is_async : bool) (name : string) (decorator_list : list expr)
    (lineno : Z) (docstring : option string) (result : FileAnalysis) : FileAnalysis :=
  let decs := function_decorators decorator_list in
  let entry := FnDict {| fn_name := name; fn_decorators := Some decs;
                         fn_is_async := Some is_async; fn_line := Some lineno;
                         fn_description := Some (function_description docstring) |} in
  let new_routes :=
    map (fun dec_str => {| rt_method := None; rt_path := None; rt_function := Some name;
                           rt_decorator := Some dec_str; rt_line := Some lineno |})
        (filter (fun dec_str => is_route_decorator dec_str) decs) in
  {| file_path := file_path result; language := language result;
     classes := classes result;
     functions := functions result ++ [entry];
     components := components result; imports := imports result;
     routes := routes result ++ new_routes;
     decorators := decorators result ++ decs;
     exports := exports result; hooks := hooks result; react_hooks := react_hooks result |}.

Definition add_class (c : ClassDict) (result : FileAnalysis) : FileAnalysis :=
  {| file_path := file_path result; language := language result;
     classes := classes result ++ [c];
     functions := functions result; components := components result;
     imports := imports result; routes := routes result;
     decorators := decorators result; exports := exports result;
     hooks := hooks result; react_hooks := react_hooks result |}.

Definition add_imports (names : list string) (result : FileAnalysis) : FileAnalysis :=
  {| file_path := file_path result; language := language result;
     classes := classes result; functions := functions result;
     components := components result;
     imports := imports result ++ names;
     routes := routes result; decorators := decorators result;
     exports := exports result; hooks := hooks result; react_hooks := react_hooks result |}.

Definition set_decorators (decs : list string) (result : FileAnalysis) : FileAnalysis :=
  {| file_path := file_path result; language := language result;
     classes := classes result; functions := functions result;
     components := components result; imports := imports result;
     routes := routes result; decorators := decs;
     exports := exports result; hooks := hooks result; react_hooks := react_hooks result |}.

(** The body of [for node in ast.walk(tree)]. *)
Definition visit (result : FileAnalysis) (n : node) : FileAnalysis :=
  match node_kind_of n with
  | ClassDef name bases decorator_list lineno =>
      add_class {| cls_name := name; cls_bases := Some (class_bases bases);
                   cls_decorators := Some (class_decorators decorator_list);
                   cls_line := Some lineno; cls_extends := None |} result
  | FunctionDef name decorator_list lineno docstring =>
      visit_function false name decorator_list lineno docstring result
  | AsyncFunctionDef name decorator_list lineno docstring =>
      visit_function true name decorator_list lineno docstring result
  | Import names => add_imports names result
  | ImportFrom module names =>
      add_imports (map (fun alias => default "" module +:+ "." +:+ alias) names) result
  | OtherNode => result
  end.

Section WithLibraries.

(** Iteration order of a set built from the given items. *)
Variable set_list : list string -> list string.

(** [ast.parse(content, filename=file_path)]. *)
Variable ast_parse : string -> string -> result node.

(** The pattern-based extractors, which run on the regular-expression
    engine. *)
Variable parse_javascript : string -> string -> FileAnalysis.
Variable parse_react : string -> string -> FileAnalysis.
Variable _parse_generic : string -> string -> FileAnalysis.

Definition parse_python (content file_path : string) : result FileAnalysis :=
  let result := empty_python_result file_path in
  match ast_parse content file_path with
  | Raise SyntaxError => Ok result
  | Raise e => Raise e
  | Ok tree =>
      let result := fold_left visit (ast_walk tree) result in
      Ok (set_decorators (set_list (decorators result)) result)
  end.

(** *** Dispatcher *)

Definition parse_source_file (file_path : string) (content : option string)
    : result (option FileAnalysis) :=
  match content with
  | None => Ok None
  | Some content =>
      if PyStr.endswith ".py" file_path then
        match parse_python content file_path with
        | Ok r => Ok (Some r)
        | Raise e => Raise e
        end
      else if PyStr.endswith_any [".tsx"; ".jsx"] file_path then
        Ok (Some (parse_react content file_path))
      else if PyStr.endswith_any [".js"; ".ts"] file_path then
        Ok (Some (parse_javascript content file_path))
      else if PyStr.endswith_any [".java"; ".cpp"; ".go"; ".cs"; ".php"] file_path then
        Ok (Some (_parse_generic content file_path))
      else Ok None
  end.

(** *** Extraction loop *)

Definition source_extensions : list string :=
  [".py"; ".js"; ".ts"; ".tsx"; ".jsx"; ".java"; ".cpp"; ".go"; ".cs"; ".php"].

Definition file_extension (p : string) : string :=
  if PyStr.contains "." (PyStr.split_last "/" p)
  then "." +:+ PyStr.lower (PyStr.split_last "." p)
  else "".

(** Truthiness of [f.get("content")]. *)
Definition has_content (f : SourceFile) : bool :=
  match content f with
  | Some c => PyStr.truthy c
  | None => false
  end.

Definition analyze_step (acc : result (list FileAnalysis)) (f : SourceFile)
    : result (list FileAnalysis) :=
  match acc with
  | Raise e => Raise e
  | Ok results =>
      let ext := file_extension (path f) in
      if mem_str ext source_extensions && has_content f then
        match parse_source_file (path f) (content f) with
        | Raise e => Raise e
        | Ok (Some parsed) => Ok (results ++ [parsed])
        | Ok None => Ok results
        end
      else Ok results
  end.

Definition analyze_all_sources (files : list SourceFile) : result (list FileAnalysis) :=
  fold_left analyze_step files (Ok []).

End WithLibraries.

End StaticParser.

(** ** Semantic inference *)

Module SemanticInference.

(** *** Printing of function entries, [str(functions + components)] *)

Definition repr_bool (b : bool) : string := if b then "True" else "False".

Definition repr_field {A : Type} (key : string) (print : A -> string) (v : option A) : list string :=
  match v with
  | Some x => [PyStr.repr key +:+ ": " +:+ print x]
  | None => []
  end.

(** [repr] of a function dictionary; the keys come in the order in which the
    extractors insert them. *)
Definition repr_function (d : FunctionDict) : string :=
  "{" +:+ PyStr.join ", "
            (repr_field "name" PyStr.repr (Some (fn_name d))
             ++ repr_field "decorators" PyStr.repr_list (fn_decorators d)
             ++ repr_field "is_async" repr_bool (fn_is_async d)
             ++ repr_field "line" PyStr.str_Z (fn_line d)
             ++ repr_field "description" PyStr.repr (fn_description d))
      +:+ "}".

Definition repr_entry (func : FunctionEntry) : string :=
  match func with
  | FnDict d => repr_function d
  | FnName s => PyStr.repr s
  end.

Definition str_functions_components (functions : list FunctionEntry) (components : list string) : string :=
  PyStr.str_list (map repr_entry functions ++ map PyStr.repr components).

(** *** File-level description *)

Definition state_sentence : string := " It uses React Hooks for state management.".
Definition effect_sentence : string := " It uses lifecycle side effects through useEffect.".
Definition api_sentence : string := " It interacts with backend APIs using HTTP requests.".
Definition mapping_sentence : string := " It dynamically renders UI elements using array mapping.".

(** ["map" in str(functions + components).lower()]. *)
Definition mapping_test (functions : list FunctionEntry) (components : list string) : bool :=
  PyStr.contains "map" (PyStr.lower (str_functions_components functions components)).

Definition component_description (file_analysis : FileAnalysis) (comp_name : string) : string :=
  let desc := "This React functional component named '" +:+ comp_name
              +:+ "' is responsible for rendering UI for the related feature." in
  let desc := if mem_str "useState" (react_hooks file_analysis) then desc +:+ state_sentence else desc in
  let desc := if mem_str "useEffect" (react_hooks file_analysis) then desc +:+ effect_sentence else desc in
  let desc :=
    if existsb (fun imp => PyStr.contains imp (PyStr.lower (PyStr.repr_list (imports file_analysis))))
               ["axios"; "fetch"]
    then desc +:+ api_sentence else desc in
  let desc :=
    if mapping_test (functions file_analysis) (components file_analysis)
    then desc +:+ mapping_sentence else desc in
  desc.

Definition entry_name (func : FunctionEntry) : string :=
  match func with FnDict d => fn_name d | FnName s => s end.

Definition entry_is_async (func : FunctionEntry) : bool :=
  match func with FnDict d => default false (fn_is_async d) | FnName _ => false end.

Definition entry_decorators (func : FunctionEntry) : list string :=
  match func with FnDict d => default [] (fn_decorators d) | FnName _ => [] end.

Definition script_function_sentence (func : FunctionEntry) : string :=
  if entry_is_async func
  then "This asynchronous backend function '" +:+ entry_name func
       +:+ "' likely handles business logic or request processing."
  else "This backend function '" +:+ entry_name func +:+ "' handles specific application logic.".

Definition python_function_sentence (func : FunctionEntry) : string :=
  let func_desc := "This Python function '" +:+ entry_name func
                   +:+ "' performs backend data processing logic." in
  if existsb (fun dec => PyStr.contains dec (PyStr.repr_list (entry_decorators func)))
             ["route"; "get"; "post"; "put"; "delete"]
  then func_desc +:+ " It is exposed as an API endpoint."
  else func_desc.

Definition is_script (language : string) : bool :=
  mem_str language ["JavaScript"; "TypeScript"].

Definition nonempty {A : Type} (l : list A) : bool :=
  match l with [] => false | _ => true end.

Section WithSetOrder.

Variable set_list : list string -> list string.

Definition script_descriptions (file_analysis : FileAnalysis) : list string :=
  let func_descriptions := map script_function_sentence (firstn 3 (functions file_analysis)) in
  let descriptions :=
    if nonempty func_descriptions then [PyStr.join " " (firstn 2 func_descriptions)] else [] in
  if nonempty (routes file_analysis) then
    let route_methods :=
      set_list (map (fun r => PyStr.upper (default "" (rt_method r)))
                    (firstn 3 (routes file_analysis))) in
    if nonempty route_methods
    then descriptions ++ ["This file defines API endpoints using Express routing with "
                          +:+ PyStr.join ", " route_methods +:+ " methods."]
    else descriptions
  else descriptions.

Definition python_descriptions (file_analysis : FileAnalysis) : list string :=
  let func_descriptions := map python_function_sentence (firstn 3 (functions file_analysis)) in
  let descriptions :=
    if nonempty func_descriptions then [PyStr.join " " (firstn 2 func_descriptions)] else [] in
  if nonempty (routes file_analysis)
  then descriptions ++ ["This module defines "
                        +:+ PyStr.str_nat (List.length (routes file_analysis))
                        +:+ " API route(s) for handling HTTP requests."]
  else descriptions.

Definition generic_description (language : string) : string :=
  if is_script language
  then "This " +:+ language +:+ " module contains utility functions and helper methods."
  else if String.eqb language "Python"
  then "This Python module provides core functionality for the application."
  else "This " +:+ language +:+ " file contains application logic.".

Definition generate_description (file_analysis : FileAnalysis) : string :=
  let descriptions :=
    match components file_analysis with
    | comp_name :: _ => [component_description file_analysis comp_name]
    | [] =>
        if is_script (language file_analysis) && nonempty (functions file_analysis)
        then script_descriptions file_analysis
        else if String.eqb (language file_analysis) "Python" && nonempty (functions file_analysis)
        then python_descriptions file_analysis
        else []
    end in
  let descriptions :=
    if nonempty descriptions then descriptions
    else [generic_description (language file_analysis)] in
  PyStr.join " " descriptions.

End WithSetOrder.

(** *** Per-function description *)

Definition starts (prefix name : string) : bool := PyStr.startswith prefix name.
Definition has (part name : string) : bool := PyStr.contains part name.

Definition route_words : list string := ["route"; "get"; "post"; "put"; "delete"; "patch"].

Definition _infer_function_purpose (func_name language : string) (decorators : list string) : string :=
  let name_lower := PyStr.lower func_name in
  if starts "use" func_name && is_script language then
    "Custom React hook for managing " +:+ PyStr.drop 3 func_name +:+ " state or behavior"
  else if starts "get" name_lower || starts "fetch" name_lower then "Retrieves or fetches data"
  else if starts "create" name_lower || starts "add" name_lower then "Creates or adds new data"
  else if starts "update" name_lower || starts "edit" name_lower then "Updates or modifies existing data"
  else if starts "delete" name_lower || starts "remove" name_lower then "Deletes or removes data"
  else if starts "handle" name_lower then "Handles " +:+ PyStr.drop 6 func_name +:+ " event or action"
  else if starts "on" name_lower then "Event handler for " +:+ PyStr.drop 2 func_name
  else if has "validate" name_lower then "Validates data or input"
  else if has "process" name_lower || has "parse" name_lower then "Processes or transforms data"
  else if has "render" name_lower then "Renders UI component or view"
  else if has "init" name_lower || has "setup" name_lower
  then "Initializes or sets up the application or module"
  else if has "login" name_lower || has "auth" name_lower then "Handles authentication or authorization"
  else if has "logout" name_lower then "Handles user logout"
  else if has "api" name_lower || has "request" name_lower
  then "Makes API request or handles network communication"
  else if has "save" name_lower || has "store" name_lower then "Saves or stores data"
  else if has "load" name_lower then "Loads data from storage"
  else if has "format" name_lower || has "transform" name_lower then "Formats or transforms data"
  else if has "convert" name_lower then "Converts data from one format to another"
  else if has "calculate" name_lower || has "compute" name_lower
  then "Performs calculations or computations"
  else if has "search" name_lower || has "find" name_lower then "Searches or finds specific data"
  else if has "filter" name_lower then "Filters data based on criteria"
  else if nonempty (filter (fun d => existsb (fun x => has x (PyStr.lower d)) route_words) decorators)
  then "API endpoint handler function"
  else if is_script language then "JavaScript/TypeScript utility function"
  else if String.eqb language "Python" then "Python helper function"
  else "".

(** What the text-generation backend is handed for one function. *)
Record FuncInfo : Type := mkFuncInfo {
  info_name : string;
  info_language : string
}.

Definition set_description (description : string) (d : FunctionDict) : FunctionDict :=
  {| fn_name := fn_name d; fn_decorators := fn_decorators d; fn_is_async := fn_is_async d;
     fn_line := fn_line d; fn_description := Some description |}.

Section WithBackend.

(** [HAS_LOCAL_inference] and [gen_func_desc]: [None] when the backend could
    not be imported. *)
Variable backend : option (FuncInfo -> result string).

Definition enhance_function (language : string) (func : FunctionEntry) : FunctionEntry :=
  match func with
  | FnName _ => func
  | FnDict d =>
      let func_name := fn_name d in
      if PyStr.truthy (PyStr.strip (default "" (fn_description d))) then func
      else
        let description :=
          match backend with
          | Some gen_func_desc =>
              match gen_func_desc {| info_name := func_name; info_language := language |} with
              | Ok text => text
              | Raise _ => ""
              end
          | None => ""
          end in
        let description :=
          if PyStr.truthy description then description
          else _infer_function_purpose func_name language (default [] (fn_decorators d)) in
        if PyStr.truthy description then FnDict (set_description description d) else func
  end.

Definition enhance_function_descriptions (functions : list FunctionEntry)
    (file_path language : string) : list FunctionEntry :=
  match functions with
  | [] => functions
  | _ => map (enhance_function language) functions
  end.

End WithBackend.

End SemanticInference.

(** ** Vocabulary of the statements and sample inputs *)

Module Samples.

Import GraphBuilder.

(** What one import token adds to the successor list of [source_module]:
    the first module that passes the test, unless it is the importer. *)
Definition resolve_import (source_module : string) (mods : list string) (imp_base : string)
    : list string :=
  match find (module_matches imp_base) mods with
  | Some mod_name => if String.eqb mod_name source_module then [] else [mod_name]
  | None => []
  end.

(** Recording one edge. *)
Definition push_edge (source_module : string) (st : ModuleState) (mod_name : string) : ModuleState :=
  (fst st ++ [(source_module, mod_name)], adjacency_append source_module mod_name (snd st)).

(** The successor list a file ends up with. *)
Definition file_successors (mods : list string) (analysis : FileAnalysis) : list string :=
  flat_map (fun imp => resolve_import (_path_to_module (file_path analysis)) mods (import_base imp))
           (imports analysis).

(** No key of the dictionary is in its own successor list. *)
Definition no_self_edges (adj : gmap string (list string)) : Prop :=
  forall k succs, adj !! k = Some succs -> k ∉ succs.

(** The successor list of a module is explained by one of the analysed
    files: it has one entry per import token of that file that resolves to
    another module, in token order. *)
Definition explained_by_file (source_analysis : list FileAnalysis) (N : string)
    (succs : list string) : Prop :=
  exists analysis,
    In analysis source_analysis
    /\ _path_to_module (file_path analysis) = N
    /\ succs = file_successors (dict_keys (module_names source_analysis)) analysis.

(** What one import token of component [comp_name] appends: every other
    component whose lower-cased name is the lower-cased base of the token,
    in the iteration order of [comp_names]. *)
Definition import_targets (comp_name : string) (comp_names : list string) (imp : string)
    : list string :=
  filter (fun other_comp =>
            negb (String.eqb other_comp comp_name)
            && String.eqb (PyStr.lower other_comp) (PyStr.lower (component_import_base imp)))
         comp_names.

Definition component_successors (comp_names : list string) (comp_name : string)
    (data : ComponentData) : list string :=
  flat_map (import_targets comp_name comp_names) (comp_imports data).

(** The successor list of a component is explained by its registered entry:
    one run of targets per import token, in token order. *)
Definition explained_by_component (set_list : list string -> list string)
    (source_analysis : list FileAnalysis) (comp_name : string) (succs : list string) : Prop :=
  let comps := fst (collect_components source_analysis) in
  exists data,
    In (comp_name, data) comps
    /\ succs = component_successors (set_list (dict_keys comps)) comp_name data.

(** Invariant of the [seen_edges] loop. *)
Definition drawn_once (st : gset (string * string) * Digraph) : Prop :=
  NoDup (dg_edges (snd st)) /\ forall e, e ∈ dg_edges (snd st) -> e ∈ fst st.

(** What [collect_components] leaves behind: distinct keys, and an empty
    successor list for registered components only. *)
Definition registered (st : ComponentState) : Prop :=
  List.NoDup (dict_keys (fst st))
  /\ forall k succs, snd st !! k = Some succs -> succs = [] /\ In k (dict_keys (fst st)).

(** The adjacency the route builder returns when construction succeeds. *)
Definition route_adjacency (source_analysis : list FileAnalysis) : gmap string (list string) :=
  match collect_routes source_analysis with
  | [] => ∅
  | all_routes => snd (route_loop all_routes)
  end.

Definition construction_raises (gv : Graphviz) (name : string) : bool :=
  match gv_new gv name with
  | Raise _ => true
  | Ok _ => false
  end.

Definition render_unavailable (gv : Graphviz) : Prop :=
  forall dot filepath, exists e, gv_render gv dot filepath = Raise e.

(** The [graphviz] package is importable but the [dot] binary is missing. *)
Definition graphviz_without_binary : Graphviz :=
  {| gv_new := fun _ => Ok tt;
     gv_mkdtemp := fun prefix => Ok ("/tmp/" +:+ prefix);
     gv_render := fun _ _ => Raise (OtherException "ExecutableNotFound") |}.

(** Every call into the toolchain raises. *)
Definition graphviz_broken : Graphviz :=
  {| gv_new := fun _ => Raise (OtherException "graphviz");
     gv_mkdtemp := fun _ => Raise (OtherException "mkdtemp");
     gv_render := fun _ _ => Raise (OtherException "ExecutableNotFound") |}.

(** One admissible iteration order of a set: first insertion first. *)
Fixpoint insertion_order (items : list string) : list string :=
  match items with
  | [] => []
  | x :: rest => x :: filter (fun y => negb (String.eqb y x)) (insertion_order rest)
  end.

Definition analysis_of (p lang : string) (imps comps : list string) (funcs : list FunctionEntry)
    (rts : list RouteDict) : FileAnalysis :=
  {| file_path := p; language := lang; classes := []; functions := funcs;
     components := comps; imports := imps; routes := rts; decorators := [];
     exports := []; hooks := []; react_hooks := [] |}.

(** [a.py] without imports, [b.py] with [from a import x, y]. *)
Definition two_imports_of_a : list FileAnalysis :=
  [ analysis_of "a.py" "Python" [] [] [] [];
    analysis_of "b.py" "Python" ["a.x"; "a.y"] [] [] [] ].

(** [App.jsx] imports [Button] through two paths. *)
Definition two_imports_of_button : list FileAnalysis :=
  [ analysis_of "App.jsx" "JavaScript" ["./Button"; "../lib/Button"] ["App"] [] [];
    analysis_of "Button.jsx" "JavaScript" [] ["Button"] [] [] ].

(** [pkg/util.py] imports [util.helpers]; [util.py] is a later module. *)
Definition shadowed_util : list FileAnalysis :=
  [ analysis_of "pkg/util.py" "Python" ["util.helpers"] [] [] [];
    analysis_of "util.py" "Python" [] [] [] [] ].

Definition js_route (i : nat) : RouteDict :=
  {| rt_method := Some "GET"; rt_path := Some ("/r" +:+ PyStr.str_nat i);
     rt_function := None; rt_decorator := None; rt_line := None |}.

(** One file with the 31 routes [GET /r0] ... [GET /r30]. *)
Definition routes31 : list FileAnalysis :=
  [ analysis_of "server.js" "JavaScript" [] [] [] (map js_route (seq 0 31)) ].

(** *** Extraction loop *)

(** Some branch of the dispatcher takes the path. *)
Definition has_strategy (p : string) : bool :=
  PyStr.endswith ".py" p
  || PyStr.endswith_any [".tsx"; ".jsx"] p
  || PyStr.endswith_any [".js"; ".ts"] p
  || PyStr.endswith_any [".java"; ".cpp"; ".go"; ".cs"; ".php"] p.

(** A record the loop must pass over: its extension is not a source
    extension, no branch of the dispatcher takes it, or its content is
    absent or empty. *)
Definition skipped (f : SourceFile) : Prop :=
  mem_str (StaticParser.file_extension (path f)) StaticParser.source_extensions = false
  \/ has_strategy (path f) = false
  \/ content f = None
  \/ content f = Some "".

Definition eligible (f : SourceFile) : bool :=
  mem_str (StaticParser.file_extension (path f)) StaticParser.source_extensions
  && StaticParser.has_content f && has_strategy (path f).

(** Steps 3 and 5 of the application: analyse the files, then build the
    graphs from the analyses. *)
Definition graphs_of_sources (set_list : list string -> list string)
    (ast_parse : string -> string -> result StaticParser.node)
    (parse_javascript parse_react _parse_generic : string -> string -> FileAnalysis)
    (gv : Graphviz) (files : list SourceFile) : result AllGraphs :=
  match StaticParser.analyze_all_sources set_list ast_parse parse_javascript parse_react
                                         _parse_generic files with
  | Ok source_analysis => Ok (build_all_graphs set_list gv source_analysis)
  | Raise e => Raise e
  end.

(** A parser that rejects every text, and pattern extractors that find
    nothing. *)
Definition rejecting_parser (content file_path : string) : result StaticParser.node :=
  Raise SyntaxError.

Definition finds_nothing (lang : string) (content file_path : string) : FileAnalysis :=
  analysis_of file_path lang [] [] [] [].

(** The tree of [class C(module.Base): pass]. *)
Definition class_with_dotted_base : StaticParser.node :=
  StaticParser.Node StaticParser.OtherNode
    [ StaticParser.Node
        (StaticParser.ClassDef "C"
           [StaticParser.Attribute (StaticParser.Name "module") "Base"] [] 1)
        [] ].

(** *** Annotator *)

(** The description is absent, empty or white space. *)
Definition blank (d : FunctionDict) : bool :=
  negb (PyStr.truthy (PyStr.strip (default "" (fn_description d)))).

(** [after] is [before] except, possibly, for the description of an entry
    whose description was blank. *)
Definition only_description_filled (before after : FunctionEntry) : Prop :=
  match before, after with
  | FnDict d, FnDict d' =>
      fn_name d' = fn_name d
      /\ fn_decorators d' = fn_decorators d
      /\ fn_is_async d' = fn_is_async d
      /\ fn_line d' = fn_line d
      /\ (blank d = false -> d' = d)
  | FnName s, FnName s' => s' = s
  | _, _ => False
  end.

(** The description mentions the iteration pattern. *)
Definition mentions_mapping (description : string) : bool :=
  PyStr.contains SemanticInference.mapping_sentence description.

(** The function and component names of a file. *)
Definition names_of (file_analysis : FileAnalysis) : list string :=
  map SemanticInference.entry_name (functions file_analysis) ++ components file_analysis.

(** ["map"] occurs in some name, as written, and in any letter case. *)
Definition map_among_names (file_analysis : FileAnalysis) : bool :=
  existsb (PyStr.contains "map") (names_of file_analysis).

Definition map_among_names_any_case (file_analysis : FileAnalysis) : bool :=
  existsb (fun name => PyStr.contains "map" (PyStr.lower name)) (names_of file_analysis).

(** The letters of ["map"], in either case. *)
Definition map_letter (c : ascii) : bool :=
  let l := PyStr.lower_char c in
  Ascii.eqb l "m" || Ascii.eqb l "a" || Ascii.eqb l "p".

Definition double_quote : ascii := ascii_of_nat 34.

(** The fixed text around the component name. *)
Definition desc_open : string := "This React functional component named ".
Definition desc_close : string := " is responsible for rendering UI for the related feature.".

(** A component file whose only mention of a map is in a doc comment: a
    function [load] documented as "Builds a map of users", and the component
    function [App]. *)
Definition map_in_doc_comment : FileAnalysis :=
  analysis_of "App.jsx" "JavaScript" [] ["App"]
    [ FnDict {| fn_name := "load"; fn_decorators := None; fn_is_async := None;
                fn_line := None; fn_description := Some "Builds a map of users" |};
      FnDict {| fn_name := "App"; fn_decorators := None; fn_is_async := None;
                fn_line := None; fn_description := Some "" |} ]
    [].

End Samples.

(** ** Further vocabulary *)

Module Coverage.

Import GraphBuilder.

(** The path with both separators turned into dots, before the extension
    is cut. *)
Definition normalized_path (p : string) : string :=
  PyStr.replace "\" "." (PyStr.replace "/" "." p).

(** The module name of an analysed file. *)
Definition module_of (analysis : FileAnalysis) : string :=
  _path_to_module (file_path analysis).

(** The component names the files declare, in order. *)
Definition declared_components (source_analysis : list FileAnalysis) : list string :=
  flat_map components source_analysis.

(** A set iterates over nothing but its own items. *)
Definition set_order_sound (set_list : list string -> list string) : Prop :=
  forall items x, In x (set_list items) -> In x items.

(** The identifiers of the drawn nodes. *)
Definition drawn_nodes (dot : Digraph) : list string := map fst (dg_nodes dot).

(** What the graph builders read of an analysis. *)
Definition same_graph_fields (a b : FileAnalysis) : Prop :=
  file_path a = file_path b
  /\ imports a = imports b
  /\ routes a = routes b
  /\ components a = components b
  /\ react_hooks a = react_hooks b.

End Coverage.

(** ** The annotation step of the application *)

Module Application.

(** An analysis after annotation: the same dictionary with, possibly, the
    key [semantic_description] and an enhanced function list. *)
Record AnnotatedAnalysis : Type := mkAnnotated {
  analysis : FileAnalysis;
  semantic_description : option string
}.

Definition set_functions (funcs : list FunctionEntry) (a : FileAnalysis) : FileAnalysis :=
  {| file_path := file_path a; language := language a; classes := classes a;
     functions := funcs; components := components a; imports := imports a;
     routes := routes a; decorators := decorators a; exports := exports a;
     hooks := hooks a; react_hooks := react_hooks a |}.

Section WithLibraries.

Variable set_list : list string -> list string.
Variable backend : option (SemanticInference.FuncInfo -> result string).

(** The body of [for analysis in source_analysis] in [run_analysis]. *)
Definition annotate (a : FileAnalysis) : AnnotatedAnalysis :=
  let description := SemanticInference.generate_description set_list a in
  let a' :=
    if SemanticInference.nonempty (functions a)
    then set_functions (SemanticInference.enhance_function_descriptions
                          backend (functions a) (file_path a) (language a)) a
    else a in
  {| analysis := a';
     semantic_description := if PyStr.truthy description then Some description else None |}.

(** Steps 3.5 and 5: annotate every analysis, then build the graphs from
    the annotated dictionaries. *)
Definition annotate_and_build (gv : GraphBuilder.Graphviz) (source_analysis : list FileAnalysis)
    : list AnnotatedAnalysis * GraphBuilder.AllGraphs :=
  let annotated := map annotate source_analysis in
  (annotated, GraphBuilder.build_all_graphs set_list gv (map analysis annotated)).

End WithLibraries.

End Application.

Module Coverage2.

(** An analysis reduced to what the graph builders read. *)
Definition graph_view (a : FileAnalysis) : FileAnalysis :=
  {| file_path := file_path a; language := ""; classes := []; functions := [];
     components := components a; imports := imports a; routes := routes a;
     decorators := []; exports := []; hooks := []; react_hooks := react_hooks a |}.

End Coverage2.

Module ParserVocabulary.

Import StaticParser.

(** [base.a1.a2...an] as a tree of attribute nodes. *)
Definition attribute_chain (base : expr) (attrs : list string) : expr :=
  fold_left Attribute attrs base.

Definition is_function_def (k : node_kind) : bool :=
  match k with
  | FunctionDef _ _ _ _ | AsyncFunctionDef _ _ _ _ => true
  | _ => false
  end.

Definition is_class_def (k : node_kind) : bool :=
  match k with
  | ClassDef _ _ _ _ => true
  | _ => false
  end.

(** Number of nodes of a kind in a tree, nested definitions included. *)
Fixpoint count_kind (p : node_kind -> bool) (n : node) : nat :=
  match n with
  | Node k children => (if p k then 1 else 0) + list_sum (map (count_kind p) children)
  end.

(** Number of nodes of a kind in a list of visited nodes. *)
Definition count_visited (p : node_kind -> bool) (nodes : list node) : nat :=
  List.length (List.filter (fun n => p (node_kind_of n)) nodes).

(** A route record of the Python extractor is backed by a function record
    of the same analysis: same name and line, and the route's decorator is
    one of the function's decorators and carries a route marker.  Such a
    record has no method and no path. *)
Definition route_backed_by (funcs : list FunctionEntry) (route : RouteDict) : Prop :=
  exists d dec,
    In (FnDict d) funcs
    /\ rt_function route = Some (fn_name d)
    /\ rt_decorator route = Some dec
    /\ In dec (default [] (fn_decorators d))
    /\ is_route_decorator dec = true
    /\ rt_line route = fn_line d
    /\ rt_method route = None
    /\ rt_path route = None.

(** A function record as the Python extractor writes it: a dictionary with
    every key present and a one-line description of at most 200
    characters. *)
Definition python_function_record (func : FunctionEntry) : Prop :=
  match func with
  | FnName _ => False
  | FnDict d =>
      exists decs is_async lineno description,
        fn_decorators d = Some decs /\ fn_is_async d = Some is_async
        /\ fn_line d = Some lineno /\ fn_description d = Some description
        /\ String.length description <= 200
        /\ PyStr.contains GraphBuilder.newline description = false
  end.

(** The two results of the loop over two runs of files, put together. *)
Definition join_results (r1 r2 : result (list FileAnalysis)) : result (list FileAnalysis) :=
  match r1 with
  | Raise e => Raise e
  | Ok a =>
      match r2 with
      | Raise e => Raise e
      | Ok b => Ok (a ++ b)
      end
  end.

(** A tree with a method and a nested function:
    [class C: def m(self): def inner(): pass], then [async def f(): pass]. *)
Definition nested_definitions : node :=
  Node OtherNode
    [ Node (ClassDef "C" [] [] 1)
        [ Node (FunctionDef "m" [] 2 None)
            [ Node (FunctionDef "inner" [] 3 None) [] ] ];
      Node (AsyncFunctionDef "f" [Call (Attribute (Name "app") "get") "'/f'"] 5 (Some "Doc."))
        [] ].

(** What every step of the walk keeps. *)
Definition python_result (filename : string) (r : FileAnalysis) : Prop :=
  file_path r = filename /\ language r = "Python"
  /\ components r = [] /\ exports r = [] /\ hooks r = [] /\ react_hooks r = []
  /\ Forall python_function_record (functions r)
  /\ Forall (route_backed_by (functions r)) (routes r).

End ParserVocabulary.

(** ** The pattern detector of the annotator *)

Module CodePatterns.

Record Patterns : Type := mkPatterns {
  has_async : bool;
  has_api_calls : bool;
  has_state_management : bool;
  has_routing : bool;
  has_database : bool;
  has_validation : bool
}.

(** [any(x in content_lower for x in needles)]. *)
Definition any_in (needles : list string) (content_lower : string) : bool :=
  existsb (fun x => PyStr.contains x content_lower) needles.

Definition no_patterns : Patterns :=
  {| has_async := false; has_api_calls := false; has_state_management := false;
     has_routing := false; has_database := false; has_validation := false |}.

Definition analyze_code_patterns (file_content language : string) : Patterns :=
  if negb (PyStr.truthy file_content) then no_patterns
  else
    let content_lower := PyStr.lower file_content in
    {| has_async := PyStr.contains "async" content_lower || PyStr.contains "await" content_lower;
       has_api_calls :=
         any_in ["axios"; "fetch("; "http.get"; "http.post"; "requests.get"; "requests.post"]
                content_lower;
       has_state_management :=
         any_in ["usestate"; "setstate"; "redux"; "vuex"; "mobx"] content_lower;
       has_routing := any_in ["router"; "route"; "@app.route"; "express()"] content_lower;
       has_database :=
         any_in ["mongoose"; "sequelize"; "prisma"; "sqlalchemy"; "query"; "database"]
                content_lower;
       has_validation := any_in ["validate"; "yup"; "joi"; "validator"; "schema"] content_lower |}.

End CodePatterns.

(** ** The local text-generation backend *)

Module LocalInference.

(** [_fallback_description]: [params] are the keys of the parameter
    dictionary. *)
Definition _fallback_description (func_name : string) (params : list string)
    (returns docstring : string) : string :=
  let description := "The '" +:+ func_name +:+ "' function" in
  let description :=
    if SemanticInference.nonempty params
    then description +:+ " accepts " +:+ PyStr.str_nat (List.length params) +:+ " parameter(s)"
    else description in
  let description :=
    if PyStr.truthy returns then description +:+ " and returns " +:+ returns else description in
  if PyStr.truthy docstring
  then description +:+ ". " +:+ PyStr.take 100 docstring
  else description +:+ " performs specific operations within the codebase.".

Definition prompt (func_name language : string) (params : list string)
    (returns docstring : string) : string :=
  "Analyze and describe this code function concisely:" +:+ GraphBuilder.newline
  +:+ "Function name: " +:+ func_name +:+ GraphBuilder.newline
  +:+ "Language: " +:+ language +:+ GraphBuilder.newline
  +:+ "Parameters: "
  +:+ (if SemanticInference.nonempty params then PyStr.join ", " params else "no parameters")
  +:+ GraphBuilder.newline
  +:+ "Return type: " +:+ (if PyStr.truthy returns then returns else "unknown")
  +:+ GraphBuilder.newline
  +:+ "Docstring: " +:+ (if PyStr.truthy docstring then docstring else "none provided")
  +:+ GraphBuilder.newline +:+ GraphBuilder.newline
  +:+ "Provide a brief technical description of what this function does and why it's important. Keep it to 1-2 sentences.".

Section WithEngine.

(** [HAS_TRANSFORMERS], and the generator of the engine: [None] when the
    pipeline could not be set up; called on a prompt it gives the generated
    texts or raises. *)
Variable has_transformers : bool.
Variable generator : option (string -> result (list string)).

Definition generate_function_description (func_name language : string) (params : list string)
    (returns docstring : string) : string :=
  let fallback := _fallback_description func_name params returns docstring in
  match generator with
  | None => fallback
  | Some generate =>
      if negb has_transformers then fallback
      else
        match generate (prompt func_name language params returns docstring) with
        | Ok (text :: _) => PyStr.strip text
        | Ok [] => fallback
        | Raise _ => fallback
        end
  end.

(** [gen_func_desc] as the annotator calls it: the function dictionaries of
    the extractors have no [params], [returns] or [docstring] key, so the
    defaults are passed. *)
Definition gen_func_desc (info : SemanticInference.FuncInfo) : result string :=
  Ok (generate_function_description (SemanticInference.info_name info)
        (SemanticInference.info_language info) [] "" "").

End WithEngine.

End LocalInference.

Module AnnotatorVocabulary.

(** A language the per-function rule list has a last resort for. *)
Definition known_language (language : string) : bool :=
  SemanticInference.is_script language || String.eqb language "Python".

(** The entry, if a dictionary, has a description that is not blank. *)
Definition described (func : FunctionEntry) : Prop :=
  match func with
  | FnDict d => Samples.blank d = false
  | FnName _ => True
  end.

(** Every flag set in [a] is set in [b]. *)
Definition patterns_le (a b : CodePatterns.Patterns) : Prop :=
  (CodePatterns.has_async a = true -> CodePatterns.has_async b = true)
  /\ (CodePatterns.has_api_calls a = true -> CodePatterns.has_api_calls b = true)
  /\ (CodePatterns.has_state_management a = true -> CodePatterns.has_state_management b = true)
  /\ (CodePatterns.has_routing a = true -> CodePatterns.has_routing b = true)
  /\ (CodePatterns.has_database a = true -> CodePatterns.has_database b = true)
  /\ (CodePatterns.has_validation a = true -> CodePatterns.has_validation b = true).

(** The sentence of the backend when no model is available. *)
Definition fallback_sentence (func_name : string) : string :=
  "The '" +:+ func_name +:+ "' function performs specific operations within the codebase.".

Definition blank_function (name : string) : FunctionDict :=
  {| fn_name := name; fn_decorators := None; fn_is_async := None; fn_line := None;
     fn_description := Some "" |}.

End AnnotatorVocabulary.

Module GraphVocabulary.

Import GraphBuilder.

(** A toolchain that renders: every file it is asked for exists
    afterwards. *)
Definition graphviz_working : Graphviz :=
  {| gv_new := fun _ => Ok tt;
     gv_mkdtemp := fun prefix => Ok ("/tmp/" +:+ prefix +:+ "x1");
     gv_render := fun _ filepath => Ok (fun p => String.eqb p (filepath +:+ ".png")) |}.

(** The image path comes from a successful rendering: the temporary
    directory was made, the rendering returned, and the file exists. *)
Definition image_was_rendered (gv : Graphviz) (dot : Digraph) (name image : string) : Prop :=
  exists tmp_dir exists_,
    gv_mkdtemp gv "repo_intel_" = Ok tmp_dir
    /\ gv_render gv dot (tmp_dir +:+ "/" +:+ name) = Ok exists_
    /\ image = tmp_dir +:+ "/" +:+ name +:+ ".png"
    /\ exists_ image = true.

End GraphVocabulary.

(** * Properties *)

Import GraphBuilder Samples.

(** ** The embedding on the scenarios of the specification *)

Example path_to_module_ex :
  _path_to_module "src/app/main.py" = "src.app.main"
  /\ _path_to_module "README" = "README".
Proof. split; reflexivity. Qed.

Example shorten_label_ex :
  _shorten_label "a.very.long.package.name.with.module" = "...with.module".
Proof. reflexivity. Qed.

(** Scenario A: two routes under the gateway. *)
Example scenario_a :
  route_adjacency
    [ analysis_of "server.js" "JavaScript" [] [] []
        [ mkRoute (Some "GET") (Some "/users") None None None;
          mkRoute (Some "POST") (Some "/users") None None None ] ]
  = {[ "API_Gateway" := ["GET /users"; "POST /users"] ]}.
Proof. vm_compute. reflexivity. Qed.

(** Scenarios B and the heuristic: retrieval by name prefix. *)
Example scenario_b :
  SemanticInference._infer_function_purpose "get_user" "Python" [] = "Retrieves or fetches data"
  /\ SemanticInference._infer_function_purpose "getUser" "JavaScript" []
     = "Retrieves or fetches data".
Proof. split; reflexivity. Qed.

(** Scenario C: [b] imports [a]. *)
Example scenario_c :
  module_adjacency [ analysis_of "a.py" "Python" [] [] [] [];
                     analysis_of "b.py" "Python" ["a"] [] [] [] ]
  = {[ "a" := []; "b" := ["a"] ]}.
Proof. vm_compute. reflexivity. Qed.

(** Scenario D: a file without content gives no analysis. *)
Example scenario_d :
  StaticParser.analyze_all_sources insertion_order rejecting_parser
    (finds_nothing "JavaScript") (finds_nothing "JavaScript") (finds_nothing "Java")
    [mkSource "a.py" None]
  = Ok [].
Proof. reflexivity. Qed.

(** Scenario E: state hook and HTTP client. *)
Example scenario_e :
  SemanticInference.generate_description insertion_order
    {| file_path := "Users.jsx"; language := "JavaScript"; classes := [];
       functions := [FnDict (mkFunction "Users" None None None (Some ""))];
       components := ["Users"]; imports := ["axios"; "react"]; routes := [];
       decorators := []; exports := []; hooks := ["useState"]; react_hooks := ["useState"] |}
  = "This React functional component named 'Users' is responsible for rendering UI for the related feature. It uses React Hooks for state management. It interacts with backend APIs using HTTP requests.".
Proof. reflexivity. Qed.

(** [ast.walk] visits level by level. *)
Example ast_walk_ex :
  let leaf k := StaticParser.Node k [] in
  map StaticParser.node_kind_of
      (StaticParser.ast_walk
         (StaticParser.Node StaticParser.OtherNode
            [ StaticParser.Node (StaticParser.Import ["a"]) [leaf (StaticParser.Import ["c"])];
              leaf (StaticParser.Import ["b"]) ]))
  = [ StaticParser.OtherNode; StaticParser.Import ["a"]; StaticParser.Import ["b"];
      StaticParser.Import ["c"] ].
Proof. reflexivity. Qed.

Example repr_function_ex :
  SemanticInference.repr_function
    (mkFunction "f" (Some ["app.get"]) (Some false) (Some 3%Z) (Some "it's"))
  = "{'name': 'f', 'decorators': ['app.get'], 'is_async': False, 'line': 3, 'description': "
    +:+ String double_quote ("it's" +:+ String double_quote "}").
Proof. reflexivity. Qed.

(** ** Module dependency graph *)

Section ModuleGraph.

Implicit Types (st : ModuleState) (adj : gmap string (list string)).

Lemma scan_modules_resolve imp_base source_module mods st :
  scan_modules imp_base source_module mods st
  = fold_left (push_edge source_module) (resolve_import source_module mods imp_base) st.
Proof.
  unfold resolve_import.
  induction mods as [|m mods IH]; simpl; [done|].
  destruct (module_matches imp_base m); [|exact IH].
  destruct (String.eqb m source_module); reflexivity.
Qed.

Lemma push_edges_adjacency source_module succs edges adj l :
  snd (fold_left (push_edge source_module) l (edges, <[source_module := succs]> adj))
  = <[source_module := succs ++ l]> adj.
Proof.
  revert edges succs.
  induction l as [|m l IH]; intros edges succs; simpl.
  - by rewrite app_nil_r.
  - unfold push_edge at 2, adjacency_append; simpl.
    rewrite alter_insert_eq, IH, <- app_assoc. reflexivity.
Qed.

Lemma push_edges_edges source_module l st :
  fst (fold_left (push_edge source_module) l st) = fst st ++ map (pair source_module) l.
Proof.
  revert st. induction l as [|m l IH]; intros st; simpl.
  - by rewrite app_nil_r.
  - rewrite IH. simpl. by rewrite <- app_assoc.
Qed.

Lemma fold_scan_push source_module mods imps st :
  fold_left (fun st imp => scan_modules (import_base imp) source_module mods st) imps st
  = fold_left (push_edge source_module)
              (flat_map (fun imp => resolve_import source_module mods (import_base imp)) imps) st.
Proof.
  revert st. induction imps as [|imp imps IH]; intros st; simpl; [done|].
  rewrite fold_left_app, <- scan_modules_resolve. apply IH.
Qed.

Lemma module_file_step_adjacency mods st analysis :
  snd (module_file_step mods st analysis)
  = <[_path_to_module (file_path analysis) := file_successors mods analysis]> (snd st).
Proof.
  unfold module_file_step. rewrite fold_scan_push, push_edges_adjacency. reflexivity.
Qed.

Lemma module_file_step_edges mods st analysis :
  fst (module_file_step mods st analysis)
  = fst st ++ map (pair (_path_to_module (file_path analysis))) (file_successors mods analysis).
Proof.
  unfold module_file_step. rewrite fold_scan_push, push_edges_edges. reflexivity.
Qed.

Lemma resolve_import_not_self source_module mods imp_base :
  source_module ∉ resolve_import source_module mods imp_base.
Proof.
  unfold resolve_import.
  destruct (find _ mods) as [m|]; [|apply not_elem_of_nil].
  destruct (String.eqb m source_module) eqn:E; [apply not_elem_of_nil|].
  apply String.eqb_neq in E. intros ->%list_elem_of_singleton. congruence.
Qed.

Lemma file_successors_not_self mods analysis :
  _path_to_module (file_path analysis) ∉ file_successors mods analysis.
Proof.
  unfold file_successors. intros H.
  apply list_elem_of_In, in_flat_map in H as (imp & _ & H).
  apply list_elem_of_In in H. by apply resolve_import_not_self in H.
Qed.

Lemma no_self_edges_empty : no_self_edges ∅.
Proof. intros k succs H. by rewrite lookup_empty in H. Qed.

Lemma no_self_edges_insert adj k succs :
  no_self_edges adj -> k ∉ succs -> no_self_edges (<[k := succs]> adj).
Proof.
  intros Hadj Hk k' succs'. rewrite lookup_insert.
  case_decide as E; [intros [= <-]; by subst|apply Hadj].
Qed.

Lemma no_self_edges_append adj k v :
  no_self_edges adj -> v ≠ k -> no_self_edges (adjacency_append k v adj).
Proof.
  intros Hadj Hv k' succs'. unfold adjacency_append. rewrite lookup_alter.
  case_decide as E; [|apply Hadj]. subst k'.
  destruct (adj !! k) as [succs|] eqn:L; simpl; [|done].
  intros [= <-]. rewrite elem_of_app, list_elem_of_singleton.
  intros [H| ->]; [by apply (Hadj _ _ L)|done].
Qed.

Lemma module_fold_no_self mods source_analysis st :
  no_self_edges (snd st) ->
  no_self_edges (snd (fold_left (module_file_step mods) source_analysis st)).
Proof.
  revert st. induction source_analysis as [|a sa IH]; intros st Hst; simpl; [done|].
  apply IH. rewrite module_file_step_adjacency.
  apply no_self_edges_insert; [done|apply file_successors_not_self].
Qed.

Lemma module_adjacency_no_self source_analysis :
  no_self_edges (module_adjacency source_analysis).
Proof. apply module_fold_no_self, no_self_edges_empty. Qed.

End ModuleGraph.

(** ** Component graph *)

Section ComponentGraph.

Variable set_list : list string -> list string.

Lemma link_import_no_self comp_name comp_names imp adj :
  no_self_edges adj -> no_self_edges (link_import comp_name comp_names imp adj).
Proof.
  unfold link_import. revert adj.
  induction comp_names as [|other rest IH]; intros adj Hadj; simpl; [done|].
  apply IH.
  destruct (negb (String.eqb other comp_name)) eqn:E; simpl; [|done].
  destruct (String.eqb (PyStr.lower other) _); [|done].
  apply no_self_edges_append; [done|].
  apply negb_true_iff, String.eqb_neq in E. exact E.
Qed.

Lemma link_component_no_self comp_names adj item :
  no_self_edges adj -> no_self_edges (link_component comp_names adj item).
Proof.
  unfold link_component. generalize (comp_imports (snd item)) as imps. intros imps. revert adj.
  induction imps as [|imp imps IH]; intros adj Hadj; simpl; [done|].
  by apply IH, link_import_no_self.
Qed.

Lemma link_components_no_self comp_names comps adj :
  no_self_edges adj -> no_self_edges (fold_left (link_component comp_names) comps adj).
Proof.
  revert adj. induction comps as [|item comps IH]; intros adj Hadj; simpl; [done|].
  by apply IH, link_component_no_self.
Qed.

Lemma register_components_no_self st analysis :
  no_self_edges (snd st) -> no_self_edges (snd (register_components st analysis)).
Proof.
  unfold register_components. generalize (components analysis) as comps. intros comps. revert st.
  induction comps as [|comp comps IH]; intros st Hst; simpl; [done|].
  apply IH. simpl. apply no_self_edges_insert; [done|apply not_elem_of_nil].
Qed.

Lemma collect_components_no_self source_analysis :
  no_self_edges (snd (collect_components source_analysis)).
Proof.
  unfold collect_components.
  assert (H : forall st, no_self_edges (snd st) ->
                         no_self_edges (snd (fold_left register_components source_analysis st))).
  { induction source_analysis as [|a sa IH]; intros st Hst; simpl; [done|].
    by apply IH, register_components_no_self. }
  apply H, no_self_edges_empty.
Qed.

Lemma component_adjacency_no_self source_analysis :
  no_self_edges (component_adjacency set_list source_analysis).
Proof.
  unfold component_adjacency.
  pose proof (collect_components_no_self source_analysis) as H.
  destruct (collect_components source_analysis) as [comps adj].
  by apply link_components_no_self.
Qed.

End ComponentGraph.

(** C3. In the module dependency graph and in the component graph no node
    is in its own successor list: for every node [N], [N] is not an element
    of [adjacency.get(N, [])]. *)
Theorem adjacency_never_self_referential
    (set_list : list string -> list string) (source_analysis : list FileAnalysis) (N : string) :
  (N ∉ default [] (module_adjacency source_analysis !! N))
  /\ (N ∉ default [] (component_adjacency set_list source_analysis !! N)).
Proof.
  split.
  - destruct (module_adjacency source_analysis !! N) as [succs|] eqn:L; simpl.
    + exact (module_adjacency_no_self _ _ _ L).
    + apply not_elem_of_nil.
  - destruct (component_adjacency set_list source_analysis !! N) as [succs|] eqn:L; simpl.
    + exact (component_adjacency_no_self _ _ _ _ L).
    + apply not_elem_of_nil.
Qed.

(** C10. For one import token, the scan over the candidate modules stops at
    the first module that passes the match test.  When that module is the
    importing file's own module the state is left as it was: no edge is
    added, and the modules after it are not looked at, whatever they are.
    Otherwise exactly one edge, to that module, is added. *)
Theorem scan_stops_at_first_match
    (imp_base source_module : string) (before : list string) (mod_name : string)
    (after : list string) (st : ModuleState) :
  (forall m, In m before -> module_matches imp_base m = false) ->
  module_matches imp_base mod_name = true ->
  scan_modules imp_base source_module (before ++ mod_name :: after) st
  = if String.eqb mod_name source_module then st
    else (fst st ++ [(source_module, mod_name)],
          adjacency_append source_module mod_name (snd st)).
Proof.
  intros Hbefore Hmatch.
  induction before as [|m before IH]; simpl.
  - rewrite Hmatch. destruct (String.eqb mod_name source_module); reflexivity.
  - rewrite (Hbefore m (or_introl eq_refl)). apply IH.
    intros m' Hm'. apply Hbefore. by right.
Qed.

Lemma scan_stops_at_first_match_witness :
  scan_modules "util" "pkg.util" ([] ++ "pkg.util" :: ["util"]) ([], {[ "pkg.util" := [] ]})
  = ([], {[ "pkg.util" := [] ]}).
Proof.
  apply (scan_stops_at_first_match "util" "pkg.util" [] "pkg.util" ["util"]).
  - intros m [].
  - reflexivity.
Defined.

Example shadowed_util_has_no_edge :
  module_adjacency shadowed_util !! "pkg.util" = Some []
  /\ module_matches (import_base "util.helpers") "util" = true.
Proof. split; vm_compute; reflexivity. Qed.

(** ** Route flow graph *)

Lemma map_snd_enumerate {A : Type} (l : list A) (n : nat) :
  map snd (combine (seq n (List.length l)) l) = l.
Proof.
  revert n. induction l as [|x l IH]; intros n; simpl; [done|]. by rewrite IH.
Qed.

Lemma route_steps_adjacency entries dot succs :
  snd (fold_left route_step entries (dot, {[ "API_Gateway" := succs ]}))
  = {[ "API_Gateway" := succs ++ map (fun entry => route_label (snd (snd entry))) entries ]}.
Proof.
  revert dot succs.
  induction entries as [|[i [file_mod route]] entries IH]; intros dot succs; simpl.
  - by rewrite app_nil_r.
  - unfold adjacency_append. rewrite alter_singleton_eq, IH, <- app_assoc. reflexivity.
Qed.

(** The successor list of the gateway holds the labels of the first 30
    routes and nothing else. *)
Lemma route_loop_adjacency all_routes :
  snd (route_loop all_routes)
  = {[ "API_Gateway" := map (fun r => route_label (snd r)) (firstn 30 all_routes) ]}.
Proof.
  unfold route_loop, enumerate. rewrite route_steps_adjacency. simpl.
  rewrite <- (map_map snd (fun r => route_label (snd r))), map_snd_enumerate. reflexivity.
Qed.

(** C1. On the input [routes31] (one file with the 31 routes [GET /r0] to
    [GET /r30]) the route builder returns an adjacency whose gateway
    successor list has the 30 labels [GET /r0] to [GET /r29]; the label of
    the 31st route, [GET /r30], is not in it. *)
Theorem route_adjacency_drops_31st_route :
  build_route_flow_graph graphviz_without_binary routes31
  = Ok (None, {[ "API_Gateway" := map (fun i => "GET /r" +:+ PyStr.str_nat i) (seq 0 30) ]})
  /\ nth_error (collect_routes routes31) 30 = Some ("server", js_route 30)
  /\ route_label (js_route 30) = "GET /r30"
  /\ "GET /r30" ∉ map (fun i => "GET /r" +:+ PyStr.str_nat i) (seq 0 30).
Proof.
  split; [|split; [|split]].
  - unfold build_route_flow_graph.
    assert (H := route_loop_adjacency (collect_routes routes31)).
    destruct (route_loop (collect_routes routes31)) as [dot adj]. simpl in H. subst adj.
    reflexivity.
  - reflexivity.
  - reflexivity.
  - intros H. apply list_elem_of_In in H. vm_compute in H.
    repeat (destruct H as [H|H]; [discriminate H|]). exact H.
Qed.

(** ** Rendered edges are drawn once *)

Lemma draw_edge_once_invariant display src dst st :
  drawn_once st -> drawn_once (draw_edge_once display src dst st).
Proof.
  destruct st as [seen dot]. unfold draw_edge_once, drawn_once. simpl. intros [Hnd Hseen].
  destruct (mem_str src display && mem_str dst display); [|done].
  case_bool_decide as Hin; [done|]. simpl. split.
  - apply NoDup_app. split; [done|]. split; [|apply NoDup_singleton].
    intros e He ->%list_elem_of_singleton. by apply Hin, Hseen.
  - intros e [He| ->%list_elem_of_singleton]%elem_of_app; [|set_solver].
    apply elem_of_union_r, Hseen, He.
Qed.

Lemma dot_nodes_keep_edges {A : Type} (f : Digraph -> A -> Digraph) (l : list A) (dot : Digraph) :
  (forall d x, dg_edges (f d x) = dg_edges d) ->
  dg_edges (fold_left f l dot) = dg_edges dot.
Proof.
  intros Hf. revert dot. induction l as [|x l IH]; intros dot; simpl; [done|].
  by rewrite IH, Hf.
Qed.

Lemma drawn_once_start (dot : Digraph) : dg_edges dot = [] -> drawn_once (∅, dot).
Proof.
  intros H. unfold drawn_once. simpl. rewrite H. split; [apply NoDup_nil_2|].
  intros e He. by apply not_elem_of_nil in He.
Qed.

Lemma module_dot_edges_once set_list source_analysis :
  NoDup (dg_edges (module_dot set_list source_analysis)).
Proof.
  unfold module_dot.
  set (display := firstn 40 _). set (dot := fold_left _ display _).
  assert (H : forall edges st, drawn_once st ->
            drawn_once (fold_left (fun st e => draw_edge_once display (fst e) (snd e) st) edges st)).
  { induction edges as [|e edges IH]; intros st Hst; simpl; [done|].
    by apply IH, draw_edge_once_invariant. }
  apply H, drawn_once_start. unfold dot. by rewrite dot_nodes_keep_edges.
Qed.

Lemma component_dot_edges_once set_list source_analysis :
  NoDup (dg_edges (component_dot set_list source_analysis)).
Proof.
  unfold component_dot.
  set (display := dict_keys _). set (adj := component_adjacency _ _). set (dot := fold_left _ _ _).
  assert (Hin : forall comp_name children st, drawn_once st ->
            drawn_once (fold_left (fun st child => draw_edge_once display comp_name child st)
                                  children st)).
  { induction children as [|c children IH]; intros st Hst; simpl; [done|].
    by apply IH, draw_edge_once_invariant. }
  assert (H : forall names st, drawn_once st ->
            drawn_once (fold_left (fun st comp_name =>
                          fold_left (fun st child => draw_edge_once display comp_name child st)
                                    (default [] (adj !! comp_name)) st) names st)).
  { induction names as [|n names IH]; intros st Hst; simpl; [done|]. by apply IH, Hin. }
  apply H, drawn_once_start. unfold dot. by rewrite dot_nodes_keep_edges.
Qed.

(** ** Successor lists, token by token *)

Lemma module_fold_explained (P : FileAnalysis -> Prop) mods source_analysis st :
  Forall P source_analysis ->
  map_Forall (fun N succs => exists a, P a /\ _path_to_module (file_path a) = N
                                       /\ succs = file_successors mods a) (snd st) ->
  map_Forall (fun N succs => exists a, P a /\ _path_to_module (file_path a) = N
                                       /\ succs = file_successors mods a)
             (snd (fold_left (module_file_step mods) source_analysis st)).
Proof.
  revert st. induction source_analysis as [|a sa IH]; intros st HP Hst; simpl; [done|].
  inversion HP as [|? ? Ha Hsa]; subst.
  apply IH; [done|]. rewrite module_file_step_adjacency.
  apply map_Forall_insert_2; [by exists a|done].
Qed.

Lemma module_adjacency_explained source_analysis :
  map_Forall (explained_by_file source_analysis) (module_adjacency source_analysis).
Proof.
  unfold module_adjacency, module_edges_adjacency, explained_by_file.
  apply (module_fold_explained (fun a => In a source_analysis)).
  - apply Forall_forall. intros a Ha. by apply list_elem_of_In.
  - apply map_Forall_empty.
Qed.

Lemma append_many_alter (k : string) (p : string -> bool) (items : list string)
    (adj : gmap string (list string)) :
  fold_left (fun adj x => if p x then adjacency_append k x adj else adj) items adj
  = alter (fun succs => succs ++ filter p items) k adj.
Proof.
  revert adj. induction items as [|x items IH]; intros adj; simpl.
  - symmetry. apply alter_id. intros succs _. apply app_nil_r.
  - rewrite IH. unfold filter; simpl.
    destruct (p x); [|reflexivity].
    unfold adjacency_append. rewrite alter_alter_eq.
    apply alter_ext. intros succs _. simpl. by rewrite <- app_assoc.
Qed.

Lemma link_import_targets comp_name comp_names imp adj :
  link_import comp_name comp_names imp adj
  = alter (fun succs => succs ++ import_targets comp_name comp_names imp) comp_name adj.
Proof. unfold link_import, import_targets. apply append_many_alter. Qed.

Lemma link_component_successors comp_names adj item :
  link_component comp_names adj item
  = alter (fun succs => succs ++ component_successors comp_names (fst item) (snd item))
          (fst item) adj.
Proof.
  unfold link_component, component_successors.
  generalize (comp_imports (snd item)) as imps. intros imps. revert adj.
  induction imps as [|imp imps IH]; intros adj; simpl.
  - symmetry. apply alter_id. intros succs _. apply app_nil_r.
  - rewrite IH, link_import_targets, alter_alter_eq.
    apply alter_ext. intros succs _. simpl. by rewrite <- app_assoc.
Qed.

Lemma link_components_other comp_names comps adj k :
  ~ In k (dict_keys comps) ->
  fold_left (link_component comp_names) comps adj !! k = adj !! k.
Proof.
  revert adj. induction comps as [|item comps IH]; intros adj Hk; simpl; [done|].
  rewrite IH by (intros H; apply Hk; by right).
  rewrite link_component_successors, lookup_alter_ne; [done|].
  intros E. apply Hk. left. exact E.
Qed.

Lemma link_components_lookup comp_names comps adj k data :
  List.NoDup (dict_keys comps) -> In (k, data) comps ->
  fold_left (link_component comp_names) comps adj !! k
  = (fun succs => succs ++ component_successors comp_names k data) <$> adj !! k.
Proof.
  revert adj. induction comps as [|item comps IH]; intros adj Hnd Hin; simpl; [done|].
  inversion Hnd as [|? ? Hfresh Hnd']; subst.
  destruct Hin as [->|Hin].
  - rewrite link_components_other by exact Hfresh.
    rewrite link_component_successors. simpl. apply lookup_alter_eq.
  - rewrite (IH _ Hnd' Hin), link_component_successors, lookup_alter_ne; [done|].
    intros E. apply Hfresh. rewrite E. apply (in_map fst _ _ Hin).
Qed.

Lemma dict_set_keys {V : Type} (k : string) (v : V) (d : list (string * V)) :
  dict_keys (dict_set k v d)
  = if mem_str k (dict_keys d) then dict_keys d else dict_keys d ++ [k].
Proof.
  unfold dict_keys, mem_str. induction d as [|[k' v'] d IH]; simpl; [done|].
  rewrite (String.eqb_sym k k').
  destruct (String.eqb k' k) eqn:E; simpl.
  - apply String.eqb_eq in E. by subst.
  - rewrite IH. by destruct (existsb _ _).
Qed.

Lemma mem_str_In (x : string) (l : list string) : mem_str x l = true <-> In x l.
Proof.
  unfold mem_str. rewrite existsb_exists. split.
  - intros (y & Hy & E). apply String.eqb_eq in E. by subst.
  - intros H. exists x. split; [done|apply String.eqb_refl].
Qed.

Lemma dict_set_keys_NoDup {V : Type} (k : string) (v : V) (d : list (string * V)) :
  List.NoDup (dict_keys d) -> List.NoDup (dict_keys (dict_set k v d)).
Proof.
  intros Hnd. rewrite dict_set_keys.
  destruct (mem_str k (dict_keys d)) eqn:E; [done|].
  apply NoDup_ListNoDup, NoDup_app. split; [by apply NoDup_ListNoDup|].
  split; [|apply NoDup_singleton].
  intros x Hx ->%list_elem_of_singleton.
  apply list_elem_of_In, mem_str_In in Hx. congruence.
Qed.

Lemma dict_set_keys_In {V : Type} (k : string) (v : V) (d : list (string * V)) (x : string) :
  In x (dict_keys d) -> In x (dict_keys (dict_set k v d)).
Proof.
  intros H. rewrite dict_set_keys. destruct (mem_str k (dict_keys d)); [done|].
  apply in_or_app. by left.
Qed.

Lemma dict_set_keys_new {V : Type} (k : string) (v : V) (d : list (string * V)) :
  In k (dict_keys (dict_set k v d)).
Proof.
  rewrite dict_set_keys. destruct (mem_str k (dict_keys d)) eqn:E.
  - by apply mem_str_In.
  - apply in_or_app. right. by left.
Qed.

Lemma register_components_registered st analysis :
  registered st -> registered (register_components st analysis).
Proof.
  unfold register_components. generalize (components analysis) as comps. intros comps. revert st.
  induction comps as [|comp comps IH]; intros st Hst; simpl; [done|].
  apply IH. destruct Hst as [Hnd Hadj]. split; simpl.
  - by apply dict_set_keys_NoDup.
  - intros k succs. rewrite lookup_insert. case_decide as E.
    + intros [= <-]. subst k. split; [done|apply dict_set_keys_new].
    + intros H. destruct (Hadj _ _ H) as [-> Hk]. split; [done|by apply dict_set_keys_In].
Qed.

Lemma collect_components_registered source_analysis :
  registered (collect_components source_analysis).
Proof.
  unfold collect_components.
  assert (H : forall st, registered st ->
                         registered (fold_left register_components source_analysis st)).
  { induction source_analysis as [|a sa IH]; intros st Hst; simpl; [done|].
    by apply IH, register_components_registered. }
  apply H. split; simpl; [apply List.NoDup_nil|].
  intros k succs Hk. by rewrite lookup_empty in Hk.
Qed.

Lemma component_adjacency_explained set_list source_analysis :
  map_Forall (explained_by_component set_list source_analysis)
             (component_adjacency set_list source_analysis).
Proof.
  unfold component_adjacency, explained_by_component.
  destruct (collect_components_registered source_analysis) as [Hnd Hadj].
  destruct (collect_components source_analysis) as [comps adj]. simpl in *.
  intros k succs Hk.
  destruct (in_dec string_dec k (dict_keys comps)) as [Hin|Hout].
  - apply in_map_iff in Hin as ([k' data] & E & Hin). simpl in E. subst k'.
    exists data. split; [done|].
    rewrite (link_components_lookup _ _ _ _ _ Hnd Hin) in Hk.
    destruct (adj !! k) as [succs0|] eqn:L; [|done]. simpl in Hk.
    destruct (Hadj _ _ L) as [-> _]. by injection Hk as <-.
  - rewrite (link_components_other _ _ _ _ Hout) in Hk.
    destruct (Hadj _ _ Hk) as [_ Hin]. done.
Qed.

(** C2, as stated, fails: with [a.py] and a [b.py] that has the two import
    tokens [a.x] and [a.y], the successor list of [b] is [a, a]; with an
    [App] component importing [./Button] and [../lib/Button], the successor
    list of [App] is [Button, Button]. *)
Lemma successor_lists_repeat_nodes :
  module_adjacency two_imports_of_a !! "b" = Some ["a"; "a"]
  /\ ~ NoDup ["a"; "a"]
  /\ component_adjacency insertion_order two_imports_of_button !! "App" = Some ["Button"; "Button"]
  /\ ~ NoDup ["Button"; "Button"].
Proof.
  split; [vm_compute; reflexivity|]. split.
  - intros H. apply NoDup_cons in H as [H _]. apply H. by left.
  - split; [vm_compute; reflexivity|].
    intros H. apply NoDup_cons in H as [H _]. apply H. by left.
Qed.

(** C2, amended.  In the adjacency maps of the module dependency graph and
    of the component graph every successor list is in insertion order with
    one entry per import token that resolves to another node (for a module:
    the first module matching the token; for a component: every other
    component named like the token's base), so a node is repeated when
    several tokens resolve to it.  Duplicates are removed only from the
    edges drawn into the rendered diagrams. *)
Theorem successor_lists_follow_import_tokens
    (set_list : list string -> list string) (source_analysis : list FileAnalysis) :
  map_Forall (explained_by_file source_analysis) (module_adjacency source_analysis)
  /\ map_Forall (explained_by_component set_list source_analysis)
                (component_adjacency set_list source_analysis)
  /\ NoDup (dg_edges (module_dot set_list source_analysis))
  /\ NoDup (dg_edges (component_dot set_list source_analysis)).
Proof.
  split; [apply module_adjacency_explained|].
  split; [apply component_adjacency_explained|].
  split; [apply module_dot_edges_once|apply component_dot_edges_once].
Qed.

(** ** All graphs *)

Lemma render_unavailable_no_image gv dot name :
  render_unavailable gv -> _render_graph gv dot name = None.
Proof.
  intros H. unfold _render_graph.
  destruct (gv_mkdtemp gv "repo_intel_") as [tmp_dir|]; [|done].
  destruct (H dot (tmp_dir +:+ "/" +:+ name)) as [e ->]. done.
Qed.

Lemma no_components_no_adjacency set_list source_analysis :
  fst (collect_components source_analysis) = [] ->
  component_adjacency set_list source_analysis = ∅.
Proof.
  intros H. unfold component_adjacency.
  destruct (collect_components_registered source_analysis) as [_ Hadj].
  destruct (collect_components source_analysis) as [comps adj]. simpl in *. subst comps. simpl.
  apply map_empty. intros k. destruct (adj !! k) as [succs|] eqn:L; [|done].
  by destruct (Hadj _ _ L) as [_ []].
Qed.

(** C6. [build_all_graphs] returns its three entries whatever the toolchain
    does.  The adjacency of each graph depends on that graph alone: it is
    the adjacency its builder computes, or the empty default when the
    construction of that very graph raises; the other graphs do not enter.
    The image of a graph is null when its construction raises, and all
    images are null when rendering is unavailable. *)
Theorem build_all_graphs_degrades
    (set_list : list string -> list string) (gv : Graphviz) (source_analysis : list FileAnalysis) :
  let graphs := build_all_graphs set_list gv source_analysis in
  adjacency (module_dependency graphs)
    = (if construction_raises gv "Module Dependencies" then ∅
       else module_adjacency source_analysis)
  /\ adjacency (api_routes graphs)
    = (if construction_raises gv "API Routes" then ∅ else route_adjacency source_analysis)
  /\ adjacency (component_graph graphs)
    = (if construction_raises gv "React Components" then ∅
       else component_adjacency set_list source_analysis)
  /\ (construction_raises gv "Module Dependencies" = true -> png (module_dependency graphs) = None)
  /\ (construction_raises gv "API Routes" = true -> png (api_routes graphs) = None)
  /\ (construction_raises gv "React Components" = true -> png (component_graph graphs) = None)
  /\ (render_unavailable gv ->
      png (module_dependency graphs) = None
      /\ png (api_routes graphs) = None
      /\ png (component_graph graphs) = None).
Proof.
  cbv zeta. unfold build_all_graphs, construction_raises, route_adjacency. simpl.
  unfold build_module_dependency_graph, build_route_flow_graph, build_component_graph.
  repeat split.
  - destruct source_analysis as [|a sa]; simpl.
    + by destruct (gv_new gv "Module Dependencies").
    + by destruct (gv_new gv "Module Dependencies").
  - destruct (collect_routes source_analysis) as [|r rs]; simpl.
    + by destruct (gv_new gv "API Routes").
    + destruct (gv_new gv "API Routes"); [|done].
      by destruct (route_loop (r :: rs)).
  - destruct (fst (collect_components source_analysis)) as [|c cs] eqn:E; simpl.
    + rewrite no_components_no_adjacency by exact E.
      by destruct (gv_new gv "React Components").
    + by destruct (gv_new gv "React Components").
  - destruct source_analysis as [|a sa]; simpl; [done|].
    by destruct (gv_new gv "Module Dependencies").
  - destruct (collect_routes source_analysis) as [|r rs]; simpl; [done|].
    by destruct (gv_new gv "API Routes").
  - destruct (fst (collect_components source_analysis)) as [|c cs]; simpl; [done|].
    by destruct (gv_new gv "React Components").
  - destruct source_analysis as [|a sa]; simpl; [done|].
    destruct (gv_new gv "Module Dependencies"); simpl; [|done].
    by apply render_unavailable_no_image.
  - destruct (collect_routes source_analysis) as [|r rs]; simpl; [done|].
    destruct (gv_new gv "API Routes"); simpl; [|done].
    destruct (route_loop (r :: rs)). simpl. by apply render_unavailable_no_image.
  - destruct (fst (collect_components source_analysis)) as [|c cs]; simpl; [done|].
    destruct (gv_new gv "React Components"); simpl; [|done].
    by apply render_unavailable_no_image.
Qed.

Lemma build_all_graphs_degrades_witness :
  adjacency (module_dependency (build_all_graphs insertion_order graphviz_broken two_imports_of_a)) = ∅
  /\ adjacency (api_routes (build_all_graphs insertion_order graphviz_without_binary routes31))
     = route_adjacency routes31
  /\ png (component_graph (build_all_graphs insertion_order graphviz_without_binary
                                            two_imports_of_button)) = None.
Proof.
  split; [|split].
  - apply (build_all_graphs_degrades insertion_order graphviz_broken two_imports_of_a).
  - apply (build_all_graphs_degrades insertion_order graphviz_without_binary routes31).
  - apply (build_all_graphs_degrades insertion_order graphviz_without_binary two_imports_of_button).
    intros dot filepath. eexists. reflexivity.
Defined.

(** ** Static parser *)

Section Extraction.

Import StaticParser.

Variable set_list : list string -> list string.
Variable ast_parse : string -> string -> result node.
Variables parse_javascript parse_react _parse_generic : string -> string -> FileAnalysis.

Local Abbreviation analyze :=
  (analyze_all_sources set_list ast_parse parse_javascript parse_react _parse_generic).
Local Abbreviation step :=
  (analyze_step set_list ast_parse parse_javascript parse_react _parse_generic).
Local Abbreviation dispatch :=
  (parse_source_file set_list ast_parse parse_javascript parse_react _parse_generic).

Lemma dispatch_without_strategy p c :
  has_strategy p = false -> dispatch p c = Ok None.
Proof.
  unfold has_strategy, parse_source_file. intros H.
  apply orb_false_iff in H as [H H4]. apply orb_false_iff in H as [H H3].
  apply orb_false_iff in H as [H1 H2].
  destruct c as [c|]; [|done]. by rewrite H1, H2, H3, H4.
Qed.

Lemma step_skipped acc f : skipped f -> step acc f = acc.
Proof.
  intros Hf. unfold analyze_step. destruct acc as [results|e]; [|done].
  destruct Hf as [H|[H|[H|H]]].
  - by rewrite H.
  - rewrite (dispatch_without_strategy _ _ H). by destruct (_ && _).
  - unfold has_content. rewrite H. by rewrite andb_false_r.
  - unfold has_content. rewrite H. simpl. by rewrite andb_false_r.
Qed.

Lemma analyze_skips pre f post :
  skipped f -> analyze (pre ++ f :: post) = analyze (pre ++ post).
Proof.
  intros Hf. unfold analyze_all_sources. rewrite !fold_left_app. simpl.
  by rewrite step_skipped.
Qed.

Lemma step_raise files e : fold_left step files (Raise e) = Raise e.
Proof. induction files as [|f files IH]; simpl; [done|exact IH]. Qed.

Lemma step_not_eligible acc f : eligible f = false -> step acc f = acc.
Proof.
  unfold eligible. intros H. unfold analyze_step. destruct acc as [results|e]; [|done].
  destruct (mem_str _ _ && has_content f) eqn:E; [|done]. simpl in H.
  by rewrite (dispatch_without_strategy _ _ H).
Qed.

Lemma analyze_length files acc results :
  fold_left step files (Ok acc) = Ok results ->
  List.length results <= List.length acc + List.length (filter eligible files).
Proof.
  revert acc. induction files as [|f files IH]; intros acc H; cbn [fold_left] in H.
  - injection H as <-. simpl. lia.
  - unfold filter; simpl. fold (filter eligible files).
    destruct (eligible f) eqn:E.
    + destruct (step (Ok acc) f) as [acc'|e] eqn:Hstep; [|by rewrite step_raise in H].
      apply IH in H. simpl.
      assert (List.length acc' <= S (List.length acc)); [|lia].
      unfold analyze_step in Hstep. destruct (_ && _); [|injection Hstep as <-; lia].
      destruct (dispatch _ _) as [[parsed|]|]; [| |done].
      * injection Hstep as <-. rewrite length_app. simpl. lia.
      * injection Hstep as <-. lia.
    + rewrite (step_not_eligible _ _ E) in H. by apply IH in H.
Qed.

End Extraction.

(** C4. When the syntax-tree parser rejects the text with a syntax error,
    the Python extractor does not raise: it returns an analysis for that
    file whose classes, functions, components, imports and routes are all
    empty. *)
Theorem syntax_error_gives_empty_analysis
    (set_list : list string -> list string)
    (ast_parse : string -> string -> result StaticParser.node) (content filename : string) :
  ast_parse content filename = Raise SyntaxError ->
  exists r,
    StaticParser.parse_python set_list ast_parse content filename = Ok r
    /\ file_path r = filename
    /\ classes r = [] /\ functions r = [] /\ components r = []
    /\ imports r = [] /\ routes r = [].
Proof.
  intros H. unfold StaticParser.parse_python. rewrite H.
  eexists. split; [reflexivity|]. repeat split.
Qed.

Lemma syntax_error_gives_empty_analysis_witness :
  exists r,
    StaticParser.parse_python insertion_order rejecting_parser "def f(:" "bad.py" = Ok r
    /\ file_path r = "bad.py"
    /\ classes r = [] /\ functions r = [] /\ components r = []
    /\ imports r = [] /\ routes r = [].
Proof.
  apply (syntax_error_gives_empty_analysis insertion_order rejecting_parser "def f(:" "bad.py").
  reflexivity.
Defined.

(** C5. On the tree of [class C(module.Base): pass] the extractor records
    the base class as the [ast.dump] text of the attribute node, not as
    [module.Base]; the flattening that function decorators get,
    [_get_decorator_string], would give [module.Base]. *)
Theorem dotted_base_recorded_as_dump :
  (exists r,
     StaticParser.parse_python insertion_order (fun _ _ => Ok class_with_dotted_base)
                               "class C(module.Base): pass" "c.py" = Ok r
     /\ classes r
        = [ {| cls_name := "C";
               cls_bases :=
                 Some ["Attribute(value=Name(id='module', ctx=Load()), attr='Base', ctx=Load())"];
               cls_decorators := Some []; cls_line := Some 1%Z; cls_extends := None |} ])
  /\ StaticParser._get_decorator_string
       (StaticParser.Attribute (StaticParser.Name "module") "Base") = "module.Base"
  /\ "Attribute(value=Name(id='module', ctx=Load()), attr='Base', ctx=Load())" <> "module.Base".
Proof.
  split; [|split].
  - eexists. split; reflexivity.
  - reflexivity.
  - discriminate.
Qed.

(** C8. A record whose extension is not recognised (by the loop or by the
    dispatcher) or whose content is absent or empty adds nothing: the
    analyses, and hence the graphs built from them, are those of the
    collection without that record.  The loop emits at most one analysis per
    eligible record, so no placeholder is produced. *)
Theorem skipped_records_contribute_nothing
    (set_list : list string -> list string)
    (ast_parse : string -> string -> result StaticParser.node)
    (parse_javascript parse_react _parse_generic : string -> string -> FileAnalysis)
    (gv : Graphviz) (pre : list SourceFile) (f : SourceFile) (post : list SourceFile) :
  skipped f ->
  StaticParser.analyze_all_sources set_list ast_parse parse_javascript parse_react _parse_generic
                                   (pre ++ f :: post)
  = StaticParser.analyze_all_sources set_list ast_parse parse_javascript parse_react _parse_generic
                                     (pre ++ post)
  /\ graphs_of_sources set_list ast_parse parse_javascript parse_react _parse_generic gv
                       (pre ++ f :: post)
     = graphs_of_sources set_list ast_parse parse_javascript parse_react _parse_generic gv
                         (pre ++ post)
  /\ match StaticParser.analyze_all_sources set_list ast_parse parse_javascript parse_react
                                            _parse_generic (pre ++ f :: post) with
     | Ok results => List.length results <= List.length (filter eligible (pre ++ post))
     | Raise _ => True
     end.
Proof.
  intros Hf.
  pose proof (analyze_skips set_list ast_parse parse_javascript parse_react _parse_generic
                            pre f post Hf) as E.
  split; [exact E|]. split.
  - unfold graphs_of_sources. by rewrite E.
  - rewrite E.
    destruct (StaticParser.analyze_all_sources _ _ _ _ _ (pre ++ post)) as [results|e] eqn:R;
      [|done].
    apply analyze_length in R. simpl in R. exact R.
Qed.

Lemma skipped_records_contribute_nothing_witness :
  StaticParser.analyze_all_sources insertion_order rejecting_parser
      (finds_nothing "JavaScript") (finds_nothing "JavaScript") (finds_nothing "Java")
      ([mkSource "a.py" (Some "x = 1")] ++ mkSource "README.md" (Some "text")
         :: [mkSource "b.js" None; mkSource "c.js" (Some "let c")])
  = Ok [StaticParser.empty_python_result "a.py"; finds_nothing "JavaScript" "let c" "c.js"].
Proof.
  destruct (skipped_records_contribute_nothing insertion_order rejecting_parser
              (finds_nothing "JavaScript") (finds_nothing "JavaScript") (finds_nothing "Java")
              graphviz_without_binary
              [mkSource "a.py" (Some "x = 1")] (mkSource "README.md" (Some "text"))
              [mkSource "b.js" None; mkSource "c.js" (Some "let c")]) as [E _].
  - left. reflexivity.
  - rewrite E. reflexivity.
Defined.

(** ** Annotator *)

Section Annotator.

Import SemanticInference.

Lemma enhance_function_frame backend language func :
  only_description_filled func (enhance_function backend language func).
Proof.
  destruct func as [d|s]; simpl; [|done]. unfold blank.
  destruct (PyStr.truthy (PyStr.strip _)) eqn:E; simpl.
  - repeat split; done.
  - match goal with |- context [if PyStr.truthy ?x then FnDict _ else _] =>
      destruct (PyStr.truthy x) end; simpl; repeat split; done.
Qed.

Lemma enhance_functions_frame backend functions filename language :
  Forall2 only_description_filled functions
          (enhance_function_descriptions backend functions filename language).
Proof.
  unfold enhance_function_descriptions.
  destruct functions as [|f fs]; [constructor|].
  generalize (f :: fs) as l. intros l.
  induction l as [|x l IH]; simpl; constructor; [apply enhance_function_frame|exact IH].
Qed.

End Annotator.

(** C9. With the text-generation backend absent, enhancing a list of
    function entries keeps the list order and length, keeps the name,
    decorators, async flag and line of every entry, and leaves every entry
    whose description is not blank exactly as it was; only the description
    of an entry whose description is absent, empty or white space can
    change. *)
Theorem enhance_changes_only_blank_descriptions
    (functions : list FunctionEntry) (filename language : string) :
  Forall2 only_description_filled functions
          (SemanticInference.enhance_function_descriptions None functions filename language).
Proof. apply enhance_functions_frame. Qed.

(** ** Strings *)

Section Strings.

Import PyStr.

Lemma append_cons (x : ascii) (a b : string) : String x a +:+ b = String x (a +:+ b).
Proof. reflexivity. Qed.

Lemma append_empty_l (a : string) : "" +:+ a = a.
Proof. reflexivity. Qed.

Lemma append_assoc (a b c : string) : (a +:+ b) +:+ c = a +:+ (b +:+ c).
Proof. induction a as [|x a IH]; [done|]. by rewrite !append_cons, IH. Qed.

Lemma append_empty_r (a : string) : a +:+ "" = a.
Proof. induction a as [|x a IH]; [done|]. by rewrite append_cons, IH. Qed.

Lemma lower_append (a b : string) : lower (a +:+ b) = lower a +:+ lower b.
Proof.
  unfold lower. induction a as [|x a IH]; [done|].
  rewrite append_cons. simpl. by rewrite IH.
Qed.

Lemma lower_cons (c : ascii) (s : string) : lower (String c s) = String (lower_char c) (lower s).
Proof. reflexivity. Qed.

Lemma startswith_iff (p s : string) : startswith p s = true <-> exists t, s = p +:+ t.
Proof.
  revert s. induction p as [|a p IH]; intros s.
  - split; [by exists s|done].
  - destruct s as [|b s]; simpl.
    + split; [done|by intros [t Ht]].
    + rewrite andb_true_iff, IH. split.
      * intros [E [t ->]]. apply Ascii.eqb_eq in E as ->. by exists t.
      * intros [t Ht]. rewrite append_cons in Ht. injection Ht as -> ->.
        split; [apply Ascii.eqb_refl|by exists t].
Qed.

Lemma contains_iff (n h : string) :
  contains n h = true <-> exists pre post, h = pre +:+ n +:+ post.
Proof.
  induction h as [|c h IH]; simpl.
  - rewrite orb_false_r, startswith_iff. split.
    + intros [t Ht]. by exists "", t.
    + intros (pre & post & H). destruct pre; [by exists post|done].
  - rewrite orb_true_iff, startswith_iff, IH. split.
    + intros [[t Ht]|(pre & post & ->)]; [by exists "", t|by exists (String c pre), post].
    + intros (pre & post & H). destruct pre as [|c' pre].
      * left. by exists post.
      * right. rewrite append_cons in H. injection H as -> ->. by exists pre, post.
Qed.

Lemma contains_refl (n : string) : contains n n = true.
Proof. apply contains_iff. exists "", "". by rewrite append_empty_r. Qed.

Lemma contains_append_l (n a b : string) : contains n a = true -> contains n (a +:+ b) = true.
Proof.
  rewrite !contains_iff. intros (pre & post & ->). exists pre, (post +:+ b).
  by rewrite !append_assoc.
Qed.

Lemma contains_append_r (n a b : string) : contains n b = true -> contains n (a +:+ b) = true.
Proof.
  rewrite !contains_iff. intros (pre & post & ->). exists (a +:+ pre), post.
  by rewrite !append_assoc.
Qed.

Lemma contains_cons (n : string) (c : ascii) (s : string) :
  contains n s = true -> contains n (String c s) = true.
Proof. intros H. simpl. rewrite H. apply orb_true_r. Qed.

Lemma contains_trans (a b c : string) :
  contains a b = true -> contains b c = true -> contains a c = true.
Proof.
  rewrite !contains_iff. intros (p1 & q1 & ->) (p2 & q2 & ->).
  exists (p2 +:+ p1), (q1 +:+ q2). by rewrite !append_assoc.
Qed.

Lemma contains_lower (n s : string) :
  contains n s = true -> contains (lower n) (lower s) = true.
Proof.
  rewrite !contains_iff. intros (pre & post & ->). exists (lower pre), (lower post).
  by rewrite !lower_append.
Qed.

(** A character that is not in the needle separates the search. *)
Lemma startswith_separator (c : ascii) (n x y : string) :
  contains (String c "") n = false ->
  startswith n (x +:+ String c y) = startswith n x.
Proof.
  revert n. induction x as [|b x IH]; intros n Hn.
  - change ("" +:+ String c y) with (String c y).
    destruct n as [|a n]; [done|]. simpl in Hn. simpl.
    apply orb_false_iff in Hn as [Hn _]. rewrite andb_true_r in Hn.
    by rewrite Ascii.eqb_sym, Hn.
  - rewrite append_cons. destruct n as [|a n]; [done|]. simpl in Hn. simpl.
    apply orb_false_iff in Hn as [_ Hn]. by rewrite IH.
Qed.

Lemma contains_separator (c : ascii) (n x y : string) :
  n <> "" -> contains (String c "") n = false ->
  contains n (x +:+ String c y) = contains n x || contains n y.
Proof.
  intros Hne Hn. induction x as [|b x IH].
  - change (contains n ("" +:+ String c y))
      with (startswith n ("" +:+ String c y) || contains n y).
    rewrite (startswith_separator c n "" y Hn).
    destruct n; [done|]. reflexivity.
  - change (contains n (String b x +:+ String c y))
      with (startswith n (String b x +:+ String c y) || contains n (x +:+ String c y)).
    rewrite (startswith_separator c n (String b x) y Hn), IH.
    change (contains n (String b x)) with (startswith n (String b x) || contains n x).
    by rewrite orb_assoc.
Qed.

Lemma contains_map_quoted (a name b : string) :
  contains "map" a = false -> contains "map" b = false ->
  contains "map" (a +:+ String "'" (name +:+ String "'" b)) = contains "map" name.
Proof.
  intros Ha Hb. rewrite !contains_separator by done.
  rewrite Ha, Hb. simpl. apply orb_false_r.
Qed.

(** *** [repr] keeps an occurrence of ["map"] *)

Lemma escape_char_map_letter (q c : ascii) :
  q = "'"%char \/ q = double_quote ->
  map_letter c = true -> escape_char q c = String c "".
Proof.
  intros Hq Hc.
  destruct c as [[] [] [] [] [] [] [] []]; try discriminate Hc;
    destruct Hq as [-> | ->]; reflexivity.
Qed.

Lemma lower_char_map_letter (c l : ascii) :
  lower_char c = l -> l = "m"%char \/ l = "a"%char \/ l = "p"%char -> map_letter c = true.
Proof.
  intros <- H. unfold map_letter.
  destruct H as [-> | [-> | ->]]; simpl; by rewrite ?orb_true_r.
Qed.

Lemma startswith_map_letters (s : string) :
  startswith "map" (lower s) = true ->
  exists c1 c2 c3 t,
    s = String c1 (String c2 (String c3 t))
    /\ lower_char c1 = "m"%char /\ lower_char c2 = "a"%char /\ lower_char c3 = "p"%char.
Proof.
  destruct s as [|c1 [|c2 [|c3 t]]]; unfold lower; cbn [map_chars startswith].
  - done.
  - by rewrite andb_false_r.
  - by rewrite !andb_false_r.
  - rewrite andb_true_r, !andb_true_iff. intros (H1 & H2 & H3).
    apply Ascii.eqb_eq in H1, H2, H3. by exists c1, c2, c3, t.
Qed.

Lemma escape_keeps_map (q : ascii) (s : string) :
  q = "'"%char \/ q = double_quote ->
  contains "map" (lower s) = true -> contains "map" (lower (escape q s)) = true.
Proof.
  intros Hq. induction s as [|c s IH]; [done|].
  change (contains "map" (lower (String c s)))
    with (startswith "map" (lower (String c s)) || contains "map" (lower s)).
  intros [H|H]%orb_true_iff.
  - apply startswith_map_letters in H as (c1 & c2 & c3 & t & E & H1 & H2 & H3).
    rewrite E. cbn [escape].
    rewrite (escape_char_map_letter q c1), (escape_char_map_letter q c2),
            (escape_char_map_letter q c3)
      by (try done; eapply lower_char_map_letter; eauto).
    rewrite !append_cons, !append_empty_l. unfold lower. cbn [map_chars].
    rewrite H1, H2, H3. reflexivity.
  - cbn [escape]. rewrite lower_append. by apply contains_append_r, IH.
Qed.

Lemma repr_keeps_map (s : string) :
  contains "map" (lower s) = true -> contains "map" (lower (repr s)) = true.
Proof.
  intros H. unfold repr.
  destruct (andb _ _); cbv zeta; rewrite lower_cons; apply contains_cons;
    rewrite lower_append; apply contains_append_l, escape_keeps_map; try done.
  - by right.
  - by left.
Qed.

(** *** Lists of printed items *)

Lemma contains_join (n sep item : string) (items : list string) :
  In item items -> contains n item = true -> contains n (join sep items) = true.
Proof.
  intros Hin Hn. induction items as [|p rest IH]; [done|].
  destruct rest as [|p' rest].
  - destruct Hin as [->|[]]. exact Hn.
  - change (join sep (p :: p' :: rest)) with (p +:+ sep +:+ join sep (p' :: rest)).
    destruct Hin as [->|Hin].
    + by apply contains_append_l.
    + by apply contains_append_r, contains_append_r, IH.
Qed.

Lemma lower_join (sep : string) (items : list string) :
  lower (join sep items) = join (lower sep) (map lower items).
Proof.
  induction items as [|p rest IH]; [done|].
  destruct rest as [|p' rest]; [done|].
  change (join sep (p :: p' :: rest)) with (p +:+ sep +:+ join sep (p' :: rest)).
  rewrite !lower_append, IH. reflexivity.
Qed.

Lemma str_list_keeps (n item : string) (items : list string) :
  In item items -> contains n (lower item) = true ->
  contains n (lower (str_list items)) = true.
Proof.
  intros Hin Hn. unfold str_list. rewrite !lower_append, lower_join.
  apply contains_append_r, contains_append_l.
  apply (contains_join _ _ (lower item)); [by apply in_map|done].
Qed.

End Strings.

(** ** File-level description *)

Section Description.

Import PyStr SemanticInference.

Lemma function_keeps_map (d : FunctionDict) :
  contains "map" (lower (fn_name d)) = true ->
  contains "map" (lower (repr_function d)) = true.
Proof.
  intros H. unfold repr_function. rewrite !lower_append.
  apply contains_append_r, contains_append_l. rewrite lower_join.
  apply (contains_join _ _ (lower (repr "name" +:+ ": " +:+ repr (fn_name d)))).
  - apply in_map. simpl. by left.
  - rewrite !lower_append. by apply contains_append_r, contains_append_r, repr_keeps_map.
Qed.

Lemma entry_keeps_map (func : FunctionEntry) :
  contains "map" (lower (entry_name func)) = true ->
  contains "map" (lower (repr_entry func)) = true.
Proof.
  destruct func as [d|s]; simpl; [apply function_keeps_map|apply repr_keeps_map].
Qed.

(** A name with ["map"] in it, in any letter case, makes the test succeed. *)
Lemma names_keep_map (file_analysis : FileAnalysis) :
  map_among_names_any_case file_analysis = true ->
  mapping_test (functions file_analysis) (components file_analysis) = true.
Proof.
  unfold map_among_names_any_case, names_of, mapping_test, str_functions_components.
  intros (name & Hin & Hname)%existsb_exists.
  apply in_app_or in Hin as [Hin|Hin].
  - apply in_map_iff in Hin as (func & <- & Hin).
    apply (str_list_keeps _ (repr_entry func)); [|by apply entry_keeps_map].
    apply in_or_app. left. by apply in_map.
  - apply (str_list_keeps _ (repr name)); [|by apply repr_keeps_map].
    apply in_or_app. right. by apply in_map.
Qed.

Lemma generate_description_component set_list file_analysis comp_name rest :
  components file_analysis = comp_name :: rest ->
  generate_description set_list file_analysis = component_description file_analysis comp_name.
Proof. intros E. unfold generate_description. rewrite E. reflexivity. Qed.

(** The description of a component file: the fixed text around the quoted
    name, then the optional sentences. *)
Lemma component_description_shape file_analysis comp_name :
  component_description file_analysis comp_name
  = desc_open +:+ String "'" (comp_name +:+ String "'"
      (desc_close
       +:+ (if mem_str "useState" (react_hooks file_analysis) then state_sentence else "")
       +:+ (if mem_str "useEffect" (react_hooks file_analysis) then effect_sentence else "")
       +:+ (if existsb (fun imp => contains imp (lower (repr_list (imports file_analysis))))
                       ["axios"; "fetch"]
            then api_sentence else "")
       +:+ (if mapping_test (functions file_analysis) (components file_analysis)
            then mapping_sentence else ""))).
Proof.
  unfold component_description. cbv zeta.
  destruct (mem_str "useState" _), (mem_str "useEffect" _), (existsb _ _), (mapping_test _ _);
    rewrite ?append_assoc; reflexivity.
Qed.

Lemma description_without_sentence file_analysis comp_name :
  mapping_test (functions file_analysis) (components file_analysis) = false ->
  contains "map" (component_description file_analysis comp_name) = contains "map" comp_name.
Proof.
  intros T. rewrite component_description_shape, T.
  apply contains_map_quoted; [reflexivity|].
  destruct (mem_str "useState" _), (mem_str "useEffect" _), (existsb _ _); reflexivity.
Qed.

End Description.

(** C7, as stated, fails: the file [map_in_doc_comment] has the component
    [App] and the functions [load] and [App]; no name contains ["map"], in
    any letter case, yet the description carries the array-mapping sentence,
    because the doc comment of [load] does. *)
Lemma mapping_mention_without_map_in_names :
  components map_in_doc_comment <> []
  /\ mentions_mapping (SemanticInference.generate_description insertion_order map_in_doc_comment)
     = true
  /\ map_among_names map_in_doc_comment = false
  /\ map_among_names_any_case map_in_doc_comment = false.
Proof. repeat split; [discriminate|vm_compute; reflexivity..]. Qed.

(** C7, amended.  For every analysis with at least one component, the
    description includes the array-mapping sentence exactly when ["map"]
    occurs in the lower-cased printed form of the function entries and the
    component names, [str(functions + components).lower()].  That text
    holds the names, so a name with ["map"] in it, in any letter case,
    brings the sentence; it also holds the other fields of the function
    entries, such as their descriptions. *)
Theorem mapping_mention_iff_printed_form
    (set_list : list string -> list string) (file_analysis : FileAnalysis) :
  components file_analysis <> [] ->
  mentions_mapping (SemanticInference.generate_description set_list file_analysis)
  = SemanticInference.mapping_test (functions file_analysis) (components file_analysis)
  /\ (map_among_names_any_case file_analysis = true ->
      mentions_mapping (SemanticInference.generate_description set_list file_analysis) = true).
Proof.
  intros Hne.
  destruct (components file_analysis) as [|comp_name rest] eqn:E; [done|]. rewrite <- E.
  rewrite (generate_description_component _ _ _ _ E).
  assert (Hfirst : mentions_mapping (SemanticInference.component_description file_analysis comp_name)
                   = SemanticInference.mapping_test (functions file_analysis)
                                                    (components file_analysis)).
  { unfold mentions_mapping.
    destruct (SemanticInference.mapping_test _ _) eqn:T.
    - unfold SemanticInference.component_description. cbv zeta. rewrite T.
      apply contains_append_r, contains_refl.
    - destruct (PyStr.contains _ _) eqn:C; [exfalso|done].
      assert (M : PyStr.contains "map"
                    (SemanticInference.component_description file_analysis comp_name) = true).
      { eapply contains_trans; [|exact C]. reflexivity. }
      rewrite (description_without_sentence _ _ T) in M.
      apply contains_lower in M. change (PyStr.lower "map") with "map" in M.
      assert (N : map_among_names_any_case file_analysis = true).
      { unfold map_among_names_any_case, names_of. apply existsb_exists.
        exists comp_name. split; [|exact M].
        apply in_or_app. right. rewrite E. by left. }
      apply names_keep_map in N. congruence. }
  split; [exact Hfirst|].
  intros N. rewrite Hfirst. by apply names_keep_map.
Qed.

Lemma mapping_mention_iff_printed_form_witness :
  mentions_mapping (SemanticInference.generate_description insertion_order map_in_doc_comment)
  = SemanticInference.mapping_test (functions map_in_doc_comment) (components map_in_doc_comment).
Proof.
  destruct (mapping_mention_iff_printed_form insertion_order map_in_doc_comment) as [H _].
  - discriminate.
  - exact H.
Defined.

(** * Further properties of the code *)

Import Coverage.

(** ** Module names and labels *)

Section Utilities.

Import PyStr.

Lemma length_append (a b : string) :
  String.length (a +:+ b) = String.length a + String.length b.
Proof. induction a as [|x a IH]; [done|]. rewrite append_cons. simpl. by rewrite IH. Qed.

Lemma take_drop (n : nat) (s : string) : take n s +:+ drop n s = s.
Proof.
  revert s. induction n as [|n IH]; intros s; [done|].
  destruct s as [|c s]; [done|]. simpl. by rewrite append_cons, IH.
Qed.

Lemma take_all (s : string) : take (String.length s) s = s.
Proof. induction s as [|c s IH]; [done|]. simpl. by rewrite IH. Qed.

Lemma take_append (a b : string) : take (String.length a) (a +:+ b) = a.
Proof. induction a as [|c a IH]; [by destruct b|]. rewrite append_cons. simpl. by rewrite IH. Qed.

Lemma length_take (n : nat) (s : string) : String.length (take n s) = Nat.min n (String.length s).
Proof.
  revert s. induction n as [|n IH]; intros s; [done|].
  destruct s as [|c s]; [done|]. simpl. by rewrite IH.
Qed.

Lemma endswith_iff (suf s : string) : endswith suf s = true <-> exists pre, s = pre +:+ suf.
Proof.
  induction s as [|c s IH]; cbn [endswith].
  - rewrite orb_false_r, String.eqb_eq. split.
    + intros <-. by exists "".
    + intros [pre H]. destruct pre; [done|]. by rewrite append_cons in H.
  - rewrite orb_true_iff, String.eqb_eq, IH. split.
    + intros [<-|[pre ->]]; [by exists ""|by exists (String c pre)].
    + intros [pre H]. destruct pre as [|c' pre].
      * left. by rewrite append_empty_l in H.
      * right. rewrite append_cons in H. injection H as -> ->. by exists pre.
Qed.

Lemma endswith_cut (suf s : string) :
  endswith suf s = true ->
  take (String.length s - String.length suf) s +:+ suf = s.
Proof.
  intros [pre ->]%endswith_iff. rewrite length_append.
  replace (String.length pre + String.length suf - String.length suf) with (String.length pre) by lia.
  by rewrite take_append.
Qed.

Lemma map_chars_compose (f g : ascii -> ascii) (s : string) :
  map_chars f (map_chars g s) = map_chars (fun c => f (g c)) s.
Proof. induction s as [|c s IH]; [done|]. simpl. by rewrite IH. Qed.

Lemma map_chars_avoids (c : ascii) (f : ascii -> ascii) (s : string) :
  (forall x, Ascii.eqb c (f x) = false) ->
  contains (String c "") (map_chars f s) = false.
Proof.
  intros Hf. induction s as [|x s IH]; [done|].
  cbn [map_chars contains startswith]. by rewrite Hf, IH.
Qed.

Lemma normalized_path_no_separator (p : string) :
  contains "/" (normalized_path p) = false /\ contains "\" (normalized_path p) = false.
Proof.
  unfold normalized_path, replace. rewrite map_chars_compose.
  split; apply map_chars_avoids; intros x.
  - destruct (Ascii.eqb x "/") eqn:E1; [done|].
    destruct (Ascii.eqb x "\") eqn:E2; [done|]. by rewrite Ascii.eqb_sym.
  - destruct (Ascii.eqb x "/") eqn:E1; [done|].
    destruct (Ascii.eqb x "\") eqn:E2; [done|]. by rewrite Ascii.eqb_sym.
Qed.

Lemma contains_take (n : string) (k : nat) (s : string) :
  contains n s = false -> contains n (take k s) = false.
Proof.
  intros H. destruct (contains n (take k s)) eqn:E; [|done].
  apply (contains_append_l _ _ (drop k s)) in E. rewrite take_drop in E. congruence.
Qed.

Lemma strip_extension_cases (exts : list string) (name : string) :
  (strip_extension exts name = name
   /\ forall ext, In ext exts -> endswith ext name = false)
  \/ exists ext, In ext exts /\ strip_extension exts name +:+ ext = name.
Proof.
  induction exts as [|ext exts IH]; simpl.
  - left. by split.
  - destruct (endswith ext name) eqn:E.
    + right. exists ext. split; [by left|by apply endswith_cut].
    + destruct IH as [[H1 H2]|(ext' & Hin & H)].
      * left. split; [done|]. intros x [<-|Hx]; [done|by apply H2].
      * right. exists ext'. split; [by right|done].
Qed.

Lemma strip_extension_prefix (exts : list string) (name : string) :
  exists k, strip_extension exts name = take k name.
Proof.
  induction exts as [|ext exts IH]; simpl.
  - exists (String.length name). by rewrite take_all.
  - destruct (endswith ext name); [by eexists|exact IH].
Qed.

End Utilities.

(** X1. A module name holds no path separator: neither a slash nor a
    backslash occurs in [_path_to_module path]. *)
Theorem path_to_module_has_no_separator (p : string) :
  PyStr.contains "/" (_path_to_module p) = false
  /\ PyStr.contains "\" (_path_to_module p) = false.
Proof.
  unfold _path_to_module. fold (normalized_path p).
  destruct (strip_extension_prefix module_extensions (normalized_path p)) as [k ->].
  destruct (normalized_path_no_separator p) as [H1 H2].
  split; by apply contains_take.
Qed.

(** X2. [_path_to_module] cuts at most one extension: either no listed
    extension ends the normalised path and the module name is that path, or
    the module name followed by one listed extension is the normalised
    path. *)
Theorem path_to_module_cuts_one_extension (p : string) :
  (_path_to_module p = normalized_path p
   /\ forall ext, In ext module_extensions -> PyStr.endswith ext (normalized_path p) = false)
  \/ exists ext, In ext module_extensions /\ _path_to_module p +:+ ext = normalized_path p.
Proof. apply strip_extension_cases. Qed.

(** X3. A label with at most one dot is never longer than 25 characters. *)
Theorem shorten_label_bound (name : string) :
  List.length (PyStr.split "." name) <= 2 ->
  String.length (_shorten_label name) <= 25.
Proof.
  intros Hparts. unfold _shorten_label.
  destruct (Nat.leb (String.length name) 25) eqn:E.
  - by apply Nat.leb_le.
  - destruct (Nat.ltb 2 _) eqn:L.
    + apply Nat.ltb_lt in L. lia.
    + rewrite length_append, length_take. change (String.length "...") with 3. lia.
Qed.

Lemma shorten_label_bound_witness :
  String.length (_shorten_label "averyveryverylongmodulename.component") <= 25.
Proof.
  apply (shorten_label_bound "averyveryverylongmodulename.component").
  vm_compute. lia.
Defined.

(** ** Keys and successors of the adjacency maps *)

Section AdjacencyKeys.

Lemma dict_set_keys_iff {V : Type} (k : string) (v : V) (d : list (string * V)) (x : string) :
  In x (dict_keys (dict_set k v d)) <-> x = k \/ In x (dict_keys d).
Proof.
  rewrite dict_set_keys. destruct (mem_str k (dict_keys d)) eqn:E.
  - apply mem_str_In in E. split; [by right|]. by intros [->|H].
  - rewrite in_app_iff. simpl. split.
    + intros [H|[<-|[]]]; [by right|by left].
    + intros [->|H]; [right; by left|by left].
Qed.

Lemma module_names_fold_keys (source_analysis : list FileAnalysis) (d : list (string * string))
    (x : string) :
  In x (dict_keys (fold_left (fun d analysis =>
                                dict_set (_path_to_module (file_path analysis))
                                         (file_path analysis) d) source_analysis d))
  <-> In x (dict_keys d) \/ In x (map module_of source_analysis).
Proof.
  revert d. induction source_analysis as [|a sa IH]; intros d; simpl.
  - split; [by left|by intros [H|[]]].
  - rewrite IH, dict_set_keys_iff. unfold module_of. split.
    + intros [[->|H]|H]; [right; by left|by left|right; by right].
    + intros [H|[<-|H]]; [left; by right|left; by left|by right].
Qed.

Lemma module_names_keys (source_analysis : list FileAnalysis) (x : string) :
  In x (dict_keys (module_names source_analysis)) <-> In x (map module_of source_analysis).
Proof.
  unfold module_names. rewrite module_names_fold_keys. simpl. split; [by intros [[]|H]|by right].
Qed.

Lemma module_fold_keys mods (source_analysis : list FileAnalysis) (st : ModuleState) (N : string) :
  is_Some (snd (fold_left (module_file_step mods) source_analysis st) !! N)
  <-> is_Some (snd st !! N) \/ In N (map module_of source_analysis).
Proof.
  revert st. induction source_analysis as [|a sa IH]; intros st; simpl.
  - split; [by left|by intros [H|[]]].
  - rewrite IH, module_file_step_adjacency, lookup_insert_is_Some'. unfold module_of. split.
    + intros [[<-|H]|H]; [right; by left|by left|right; by right].
    + intros [H|[<-|H]]; [left; by right|left; by left|by right].
Qed.

Lemma resolve_import_in_mods source_module mods imp_base d :
  In d (resolve_import source_module mods imp_base) -> In d mods.
Proof.
  unfold resolve_import. destruct (find _ mods) as [m|] eqn:F; [|done].
  destruct (String.eqb m source_module); [done|].
  intros [<-|[]]. by apply find_some in F as [F _].
Qed.

Lemma file_successors_in_mods mods analysis d :
  In d (file_successors mods analysis) -> In d mods.
Proof.
  unfold file_successors. intros (imp & _ & H)%in_flat_map.
  by apply resolve_import_in_mods in H.
Qed.

End AdjacencyKeys.

Lemma module_adjacency_keys_iff (source_analysis : list FileAnalysis) (N : string) :
  is_Some (module_adjacency source_analysis !! N) <-> In N (map module_of source_analysis).
Proof.
  unfold module_adjacency, module_edges_adjacency. rewrite module_fold_keys. simpl.
  rewrite lookup_empty. split; [intros [[? H]|H]; [done|done]|by right].
Qed.

(** X4. The keys of the module adjacency are exactly the module names of
    the analysed files. *)
Theorem module_adjacency_keys (source_analysis : list FileAnalysis) (N : string) :
  is_Some (module_adjacency source_analysis !! N) <-> In N (map module_of source_analysis).
Proof. apply module_adjacency_keys_iff. Qed.

(** X5. The module adjacency is closed: every successor in it is itself a
    key of the map, the module of an analysed file. *)
Theorem module_adjacency_closed (source_analysis : list FileAnalysis) :
  map_Forall (fun _ succs =>
                Forall (fun d => is_Some (module_adjacency source_analysis !! d)) succs)
             (module_adjacency source_analysis).
Proof.
  intros N succs H.
  destruct (module_adjacency_explained _ _ _ H) as (a & _ & _ & ->).
  apply Forall_forall. intros d Hd. apply list_elem_of_In in Hd.
  apply module_adjacency_keys_iff, module_names_keys.
  by apply file_successors_in_mods in Hd.
Qed.

(** ** Keys and successors of the component adjacency *)

Section ComponentKeys.

Variable set_list : list string -> list string.

Lemma register_components_keys st analysis x :
  (In x (dict_keys (fst st)) <-> is_Some (snd st !! x)) ->
  (In x (dict_keys (fst (register_components st analysis)))
   <-> In x (dict_keys (fst st)) \/ In x (components analysis))
  /\ (In x (dict_keys (fst (register_components st analysis)))
      <-> is_Some (snd (register_components st analysis) !! x)).
Proof.
  unfold register_components. generalize (components analysis) as comps. intros comps. revert st.
  induction comps as [|comp comps IH]; intros st Hst; simpl.
  - split; [|done]. split; [by left|by intros [H|[]]].
  - set (st' := (dict_set comp _ (fst st), <[comp := []]> (snd st))).
    assert (Hst' : In x (dict_keys (fst st')) <-> is_Some (snd st' !! x)).
    { unfold st'. simpl. rewrite dict_set_keys_iff, lookup_insert_is_Some', Hst.
      split; intros [H|H]; auto. }
    destruct (IH st' Hst') as [H1 H2]. split; [|exact H2].
    rewrite H1. unfold st'. simpl. rewrite dict_set_keys_iff. split.
    + intros [[->|H]|H]; [right; by left|by left|right; by right].
    + intros [H|[<-|H]]; [left; by right|left; by left|by right].
Qed.

Lemma collect_components_keys source_analysis x :
  (In x (dict_keys (fst (collect_components source_analysis)))
   <-> In x (declared_components source_analysis))
  /\ (In x (dict_keys (fst (collect_components source_analysis)))
      <-> is_Some (snd (collect_components source_analysis) !! x)).
Proof.
  unfold collect_components, declared_components.
  assert (H : forall st,
            (In x (dict_keys (fst st)) <-> is_Some (snd st !! x)) ->
            (In x (dict_keys (fst (fold_left register_components source_analysis st)))
             <-> In x (dict_keys (fst st)) \/ In x (flat_map components source_analysis))
            /\ (In x (dict_keys (fst (fold_left register_components source_analysis st)))
                <-> is_Some (snd (fold_left register_components source_analysis st) !! x))).
  { induction source_analysis as [|a sa IH]; intros st Hst; simpl.
    - split; [|done]. split; [by left|by intros [H|[]]].
    - destruct (register_components_keys st a x Hst) as [H1 H2].
      destruct (IH _ H2) as [H3 H4]. split; [|exact H4].
      rewrite H3, H1, in_app_iff. tauto. }
  destruct (H ([], ∅)) as [H1 H2].
  { simpl. rewrite lookup_empty. split; [done|by intros [? ?]]. }
  split; [|exact H2]. rewrite H1. simpl. tauto.
Qed.

Lemma link_components_keys comp_names comps (adj : gmap string (list string)) x :
  is_Some (fold_left (link_component comp_names) comps adj !! x) <-> is_Some (adj !! x).
Proof.
  revert adj. induction comps as [|item comps IH]; intros adj; simpl; [done|].
  rewrite IH, link_component_successors. apply lookup_alter_is_Some.
Qed.

Lemma component_adjacency_keys_iff source_analysis x :
  is_Some (component_adjacency set_list source_analysis !! x)
  <-> In x (declared_components source_analysis).
Proof.
  unfold component_adjacency.
  destruct (collect_components_keys source_analysis x) as [H1 H2].
  destruct (collect_components source_analysis) as [comps adj]. simpl in *.
  by rewrite link_components_keys, <- H2.
Qed.

Lemma component_successors_in_names comp_names comp_name data d :
  In d (component_successors comp_names comp_name data) -> In d comp_names.
Proof.
  unfold component_successors, import_targets. intros (imp & _ & H)%in_flat_map.
  apply list_elem_of_In, list_elem_of_filter in H as [_ H]. by apply list_elem_of_In.
Qed.

End ComponentKeys.

(** X6. The keys of the component adjacency are exactly the component
    names the analysed files declare. *)
Theorem component_adjacency_keys
    (set_list : list string -> list string) (source_analysis : list FileAnalysis) (c : string) :
  is_Some (component_adjacency set_list source_analysis !! c)
  <-> In c (declared_components source_analysis).
Proof. apply component_adjacency_keys_iff. Qed.

(** X7. When the set of component names iterates over its own items only,
    the component adjacency is closed: every successor is a declared
    component and a key of the map. *)
Theorem component_adjacency_closed
    (set_list : list string -> list string) (source_analysis : list FileAnalysis) :
  set_order_sound set_list ->
  map_Forall (fun _ succs =>
                Forall (fun d => is_Some (component_adjacency set_list source_analysis !! d)) succs)
             (component_adjacency set_list source_analysis).
Proof.
  intros Hsound c succs H.
  destruct (component_adjacency_explained _ _ _ _ H) as (data & _ & ->).
  apply Forall_forall. intros d Hd. apply list_elem_of_In in Hd.
  apply component_successors_in_names, Hsound in Hd.
  apply component_adjacency_keys_iff.
  by apply (collect_components_keys source_analysis d).
Qed.

Lemma insertion_order_sound : set_order_sound insertion_order.
Proof.
  intros items x. induction items as [|y items IH]; simpl; [done|].
  intros [->|H]; [by left|]. right. apply IH.
  apply list_elem_of_In, list_elem_of_filter in H as [_ H]. by apply list_elem_of_In.
Qed.

Lemma component_adjacency_closed_witness :
  map_Forall (fun _ succs =>
                Forall (fun d => is_Some (component_adjacency insertion_order
                                                              two_imports_of_button !! d)) succs)
             (component_adjacency insertion_order two_imports_of_button).
Proof.
  apply (component_adjacency_closed insertion_order two_imports_of_button).
  exact insertion_order_sound.
Defined.

(** ** The drawn diagrams *)

Section Diagrams.

Variable set_list : list string -> list string.

Lemma draw_edge_once_nodes display src dst st :
  dg_nodes (snd (draw_edge_once display src dst st)) = dg_nodes (snd st).
Proof.
  destruct st as [seen dot]. unfold draw_edge_once.
  destruct (mem_str src display && mem_str dst display); [|done].
  by case_bool_decide.
Qed.

Lemma draw_edge_once_edges (R : string * string -> Prop) display src dst st :
  Forall R (dg_edges (snd st)) ->
  (In src display -> In dst display -> R (src, dst)) ->
  Forall R (dg_edges (snd (draw_edge_once display src dst st))).
Proof.
  destruct st as [seen dot]. unfold draw_edge_once. simpl. intros Hst Hnew.
  destruct (mem_str src display && mem_str dst display) eqn:E; [|done].
  case_bool_decide; [done|]. simpl.
  apply andb_true_iff in E as [E1 E2]. apply mem_str_In in E1, E2.
  apply Forall_app. split; [done|]. constructor; [by apply Hnew|constructor].
Qed.

Lemma dot_nodes_added {A : Type} (id label : A -> string) (l : list A) (dot : Digraph) :
  dg_nodes (fold_left (fun dot x => dot_node (id x) (label x) dot) l dot)
  = dg_nodes dot ++ map (fun x => (id x, label x)) l.
Proof.
  revert dot. induction l as [|x l IH]; intros dot; simpl.
  - by rewrite app_nil_r.
  - rewrite IH. simpl. by rewrite <- app_assoc.
Qed.

Lemma module_edges_fold mods (source_analysis : list FileAnalysis) (st : ModuleState)
    (e : string * string) :
  In e (fst (fold_left (module_file_step mods) source_analysis st)) ->
  In e (fst st)
  \/ exists a, In a source_analysis /\ module_of a = fst e
               /\ In (snd e) (file_successors mods a).
Proof.
  revert st. induction source_analysis as [|a sa IH]; intros st; simpl; [by left|].
  intros [H|(a' & Ha' & H)]%IH.
  - rewrite module_file_step_edges in H. apply in_app_or in H as [H|H]; [by left|].
    apply in_map_iff in H as (d & <- & Hd). right. exists a. by split; [left|].
  - right. exists a'. by split; [right|].
Qed.

Lemma module_dot_nodes source_analysis :
  drawn_nodes (module_dot set_list source_analysis)
  = firstn 40 (set_list (map (fun a => _path_to_module (file_path a)) source_analysis)).
Proof.
  unfold module_dot, drawn_nodes.
  set (display := firstn 40 _). set (dot := fold_left _ display _).
  assert (H : forall edges st,
            dg_nodes (snd (fold_left (fun st e => draw_edge_once display (fst e) (snd e) st)
                                     edges st)) = dg_nodes (snd st)).
  { induction edges as [|e edges IH]; intros st; simpl; [done|].
    by rewrite IH, draw_edge_once_nodes. }
  rewrite H. simpl. unfold dot.
  rewrite (dot_nodes_added (fun n => n) _shorten_label). simpl.
  rewrite map_map. simpl. apply map_id.
Qed.

Lemma module_dot_edges source_analysis :
  Forall (fun e =>
            In (fst e) (drawn_nodes (module_dot set_list source_analysis))
            /\ In (snd e) (drawn_nodes (module_dot set_list source_analysis))
            /\ exists a, In a source_analysis /\ module_of a = fst e
                         /\ In (snd e) (file_successors (dict_keys (module_names source_analysis)) a))
         (dg_edges (module_dot set_list source_analysis)).
Proof.
  rewrite module_dot_nodes. unfold module_dot.
  set (display := firstn 40 _). set (dot := fold_left _ display _).
  set (R := fun e : string * string => In (fst e) display /\ In (snd e) display /\ _).
  assert (H : forall edges st,
            (forall e, In e edges -> In e (fst (module_edges_adjacency source_analysis))) ->
            Forall R (dg_edges (snd st)) ->
            Forall R (dg_edges (snd (fold_left
                        (fun st e => draw_edge_once display (fst e) (snd e) st) edges st)))).
  { induction edges as [|e edges IH]; intros st Hin Hst; simpl; [done|].
    apply IH; [intros e' He'; apply Hin; by right|].
    apply draw_edge_once_edges; [done|]. intros H1 H2. repeat split; [done|done|].
    destruct (module_edges_fold _ _ _ e (Hin e (or_introl eq_refl))) as [[]|H]. exact H. }
  apply H; [done|]. simpl. unfold dot.
  rewrite dot_nodes_keep_edges by done. constructor.
Qed.

Lemma component_dot_nodes source_analysis :
  drawn_nodes (component_dot set_list source_analysis)
  = dict_keys (firstn 30 (fst (collect_components source_analysis))).
Proof.
  unfold component_dot, drawn_nodes.
  set (display := firstn 30 _). set (adj := component_adjacency _ _). set (dot := fold_left _ display _).
  assert (Hin : forall comp_name children st,
            dg_nodes (snd (fold_left (fun st child =>
                             draw_edge_once (dict_keys display) comp_name child st) children st))
            = dg_nodes (snd st)).
  { induction children as [|c children IH]; intros st; simpl; [done|].
    by rewrite IH, draw_edge_once_nodes. }
  assert (H : forall names st,
            dg_nodes (snd (fold_left (fun st comp_name =>
                             fold_left (fun st child =>
                                          draw_edge_once (dict_keys display) comp_name child st)
                                       (default [] (adj !! comp_name)) st) names st))
            = dg_nodes (snd st)).
  { induction names as [|n names IH]; intros st; simpl; [done|]. by rewrite IH, Hin. }
  rewrite H. simpl. unfold dot.
  rewrite (dot_nodes_added fst (fun item => component_label (fst item) (snd item))). simpl.
  by rewrite map_map.
Qed.

Lemma component_dot_edges source_analysis :
  Forall (fun e =>
            In (fst e) (drawn_nodes (component_dot set_list source_analysis))
            /\ In (snd e) (drawn_nodes (component_dot set_list source_analysis))
            /\ In (snd e) (default [] (component_adjacency set_list source_analysis !! fst e)))
         (dg_edges (component_dot set_list source_analysis)).
Proof.
  rewrite component_dot_nodes. unfold component_dot.
  set (display := firstn 30 _). set (adj := component_adjacency _ _). set (dot := fold_left _ display _).
  set (R := fun e : string * string =>
              In (fst e) (dict_keys display) /\ In (snd e) (dict_keys display)
              /\ In (snd e) (default [] (adj !! fst e))).
  assert (Hin : forall comp_name children st,
            (forall c, In c children -> In c (default [] (adj !! comp_name))) ->
            Forall R (dg_edges (snd st)) ->
            Forall R (dg_edges (snd (fold_left (fun st child =>
                         draw_edge_once (dict_keys display) comp_name child st) children st)))).
  { induction children as [|c children IH]; intros st Hc Hst; simpl; [done|].
    apply IH; [intros c' Hc'; apply Hc; by right|].
    apply draw_edge_once_edges; [done|]. intros H1 H2. repeat split; [done|done|].
    apply Hc. by left. }
  assert (H : forall names st,
            Forall R (dg_edges (snd st)) ->
            Forall R (dg_edges (snd (fold_left (fun st comp_name =>
                         fold_left (fun st child =>
                                      draw_edge_once (dict_keys display) comp_name child st)
                                   (default [] (adj !! comp_name)) st) names st)))).
  { induction names as [|n names IH]; intros st Hst; simpl; [done|]. by apply IH, Hin. }
  apply H. simpl. unfold dot. rewrite dot_nodes_keep_edges by done. constructor.
Qed.

End Diagrams.

(** X8. The module diagram draws at most 40 nodes; every drawn edge joins
    two drawn nodes and comes from an import of a file: its source is the
    module of an analysed file and its target is one of the modules that
    file's import tokens resolve to. *)
Theorem module_diagram_is_bounded_subset
    (set_list : list string -> list string) (source_analysis : list FileAnalysis) :
  List.length (dg_nodes (module_dot set_list source_analysis)) <= 40
  /\ Forall (fun e =>
               In (fst e) (drawn_nodes (module_dot set_list source_analysis))
               /\ In (snd e) (drawn_nodes (module_dot set_list source_analysis))
               /\ exists a, In a source_analysis /\ module_of a = fst e
                            /\ In (snd e) (file_successors
                                             (dict_keys (module_names source_analysis)) a))
            (dg_edges (module_dot set_list source_analysis)).
Proof.
  split; [|apply module_dot_edges].
  rewrite <- (length_map fst). fold (drawn_nodes (module_dot set_list source_analysis)).
  rewrite module_dot_nodes. apply firstn_le_length.
Qed.

(** X9. The component diagram draws at most 30 nodes, the first registered
    components; every drawn edge joins two drawn nodes and is an edge of the
    returned adjacency. *)
Theorem component_diagram_is_bounded_subset
    (set_list : list string -> list string) (source_analysis : list FileAnalysis) :
  List.length (dg_nodes (component_dot set_list source_analysis)) <= 30
  /\ drawn_nodes (component_dot set_list source_analysis)
     = dict_keys (firstn 30 (fst (collect_components source_analysis)))
  /\ Forall (fun e =>
               In (fst e) (drawn_nodes (component_dot set_list source_analysis))
               /\ In (snd e) (drawn_nodes (component_dot set_list source_analysis))
               /\ In (snd e) (default [] (component_adjacency set_list source_analysis !! fst e)))
            (dg_edges (component_dot set_list source_analysis)).
Proof.
  split; [|split; [apply component_dot_nodes|apply component_dot_edges]].
  rewrite <- (length_map fst). fold (drawn_nodes (component_dot set_list source_analysis)).
  rewrite component_dot_nodes. unfold dict_keys. rewrite length_map. apply firstn_le_length.
Qed.

(** ** Files that share a module name *)

Section SharedModules.

Lemma module_fold_other mods (source_analysis : list FileAnalysis) (st : ModuleState) (N : string) :
  ~ In N (map module_of source_analysis) ->
  snd (fold_left (module_file_step mods) source_analysis st) !! N = snd st !! N.
Proof.
  revert st. induction source_analysis as [|a sa IH]; intros st HN; simpl; [done|].
  rewrite IH by (intros H; apply HN; by right).
  rewrite module_file_step_adjacency, lookup_insert_ne; [done|].
  intros E. apply HN. left. exact E.
Qed.

Lemma module_fold_last mods (before : list FileAnalysis) (a : FileAnalysis)
    (after : list FileAnalysis) (st : ModuleState) :
  ~ In (module_of a) (map module_of after) ->
  snd (fold_left (module_file_step mods) (before ++ a :: after) st) !! module_of a
  = Some (file_successors mods a).
Proof.
  intros Hlast. rewrite fold_left_app. simpl.
  rewrite module_fold_other by exact Hlast.
  rewrite module_file_step_adjacency. apply lookup_insert_eq.
Qed.

End SharedModules.

(** X10. When several files have the same module name, the last one
    decides: if no file after [a] has the module name of [a], the successor
    list of that module is the one computed from the import tokens of
    [a]. *)
Theorem module_adjacency_last_file_wins
    (before : list FileAnalysis) (a : FileAnalysis) (after : list FileAnalysis) :
  ~ In (module_of a) (map module_of after) ->
  module_adjacency (before ++ a :: after) !! module_of a
  = Some (file_successors (dict_keys (module_names (before ++ a :: after))) a).
Proof. intros H. by apply module_fold_last. Qed.

Lemma module_adjacency_last_file_wins_witness :
  module_adjacency ([analysis_of "a.py" "Python" ["b"] [] [] []]
                    ++ analysis_of "a.js" "JavaScript" [] [] [] []
                    :: [analysis_of "b.py" "Python" [] [] [] []]) !! "a"
  = Some [].
Proof.
  apply (module_adjacency_last_file_wins
           [analysis_of "a.py" "Python" ["b"] [] [] []]
           (analysis_of "a.js" "JavaScript" [] [] [] [])
           [analysis_of "b.py" "Python" [] [] [] []]).
  vm_compute. intros [H|[]]. discriminate H.
Defined.

(** X11. When the files have pairwise distinct module names, every edge
    drawn in the module diagram is an edge of the returned adjacency. *)
Theorem module_diagram_subset_of_adjacency
    (set_list : list string -> list string) (source_analysis : list FileAnalysis) :
  List.NoDup (map module_of source_analysis) ->
  Forall (fun e => In (snd e) (default [] (module_adjacency source_analysis !! fst e)))
         (dg_edges (module_dot set_list source_analysis)).
Proof.
  intros Hnd.
  pose proof (module_dot_edges set_list source_analysis) as H.
  eapply Forall_impl; [exact H|]. intros [s d] (_ & _ & a & Ha & Hs & Hd). simpl in *.
  apply in_split in Ha as (before & after & ->).
  rewrite map_app in Hnd. simpl in Hnd. apply NoDup_remove_2 in Hnd.
  rewrite <- Hs. unfold module_adjacency, module_edges_adjacency.
  rewrite module_fold_last; [done|].
  intros Hin. apply Hnd, in_or_app. by right.
Qed.

Lemma module_diagram_subset_of_adjacency_witness :
  Forall (fun e => In (snd e) (default [] (module_adjacency two_imports_of_a !! fst e)))
         (dg_edges (module_dot insertion_order two_imports_of_a)).
Proof.
  apply (module_diagram_subset_of_adjacency insertion_order two_imports_of_a).
  vm_compute. apply NoDup_ListNoDup. apply NoDup_cons. split.
  - intros [H|H]%elem_of_cons; [discriminate H|by apply not_elem_of_nil in H].
  - apply NoDup_singleton.
Defined.

(** ** Shape of the route adjacency *)

(** X12. When there is at least one route and the diagram object can be
    constructed, the route builder returns an adjacency with the single key
    [API_Gateway]; its successor list holds the labels of the first 30
    routes in discovery order (files in order, routes of a file in order).
    Route handlers and files get no key and no entry. *)
Theorem route_adjacency_shape (gv : Graphviz) (source_analysis : list FileAnalysis) :
  collect_routes source_analysis <> [] ->
  gv_new gv "API Routes" = Ok tt ->
  exists image,
    build_route_flow_graph gv source_analysis
    = Ok (image,
          {[ "API_Gateway" := map (fun r => route_label (snd r))
                                  (firstn 30 (collect_routes source_analysis)) ]}).
Proof.
  intros Hne Hnew. unfold build_route_flow_graph. rewrite Hnew.
  pose proof (route_loop_adjacency (collect_routes source_analysis)) as H.
  destruct (collect_routes source_analysis) as [|r rs] eqn:E; [done|].
  destruct (route_loop (r :: rs)) as [dot adj]. simpl in H. subst adj. by eexists.
Qed.

Lemma route_adjacency_shape_witness :
  exists image,
    build_route_flow_graph graphviz_without_binary routes31
    = Ok (image,
          {[ "API_Gateway" := map (fun r => route_label (snd r))
                                  (firstn 30 (collect_routes routes31)) ]}).
Proof.
  apply (route_adjacency_shape graphviz_without_binary routes31).
  - discriminate.
  - reflexivity.
Defined.

(** ** What the graph builders read *)

Section GraphFields.

Import Coverage2 Application.

Variable set_list : list string -> list string.

Lemma fold_left_view {S : Type} (f : S -> FileAnalysis -> S) :
  (forall st a, f st (graph_view a) = f st a) ->
  forall l st, fold_left f (map graph_view l) st = fold_left f l st.
Proof.
  intros Hf. induction l as [|a l IH]; intros st; simpl; [done|]. by rewrite Hf, IH.
Qed.

Lemma module_names_view sa : module_names (map graph_view sa) = module_names sa.
Proof. unfold module_names. by apply fold_left_view. Qed.

Lemma module_edges_adjacency_view sa :
  module_edges_adjacency (map graph_view sa) = module_edges_adjacency sa.
Proof.
  unfold module_edges_adjacency. rewrite module_names_view. by apply fold_left_view.
Qed.

Lemma collect_routes_view sa : collect_routes (map graph_view sa) = collect_routes sa.
Proof.
  unfold collect_routes. induction sa as [|a sa IH]; simpl; [done|]. by rewrite IH.
Qed.

Lemma collect_components_view sa : collect_components (map graph_view sa) = collect_components sa.
Proof. unfold collect_components. by apply fold_left_view. Qed.

Lemma module_dot_view sa : module_dot set_list (map graph_view sa) = module_dot set_list sa.
Proof.
  unfold module_dot. rewrite module_edges_adjacency_view, map_map. reflexivity.
Qed.

Lemma component_adjacency_view sa :
  component_adjacency set_list (map graph_view sa) = component_adjacency set_list sa.
Proof. unfold component_adjacency. by rewrite collect_components_view. Qed.

Lemma component_dot_view sa :
  component_dot set_list (map graph_view sa) = component_dot set_list sa.
Proof.
  unfold component_dot. by rewrite collect_components_view, component_adjacency_view.
Qed.

Lemma build_all_graphs_view gv sa :
  build_all_graphs set_list gv (map graph_view sa) = build_all_graphs set_list gv sa.
Proof.
  unfold build_all_graphs, build_module_dependency_graph, build_route_flow_graph,
    build_component_graph, module_adjacency.
  rewrite module_edges_adjacency_view, module_dot_view, collect_routes_view,
    collect_components_view, component_adjacency_view, component_dot_view.
  destruct sa as [|a sa]; reflexivity.
Qed.

Lemma graph_view_fields a b : same_graph_fields a b -> graph_view a = graph_view b.
Proof. intros (H1 & H2 & H3 & H4 & H5). unfold graph_view. by rewrite H1, H2, H3, H4, H5. Qed.

Lemma graph_views_fields sa sb :
  Forall2 same_graph_fields sa sb -> map graph_view sa = map graph_view sb.
Proof.
  induction 1 as [|a b sa sb Hab _ IH]; simpl; [done|].
  by rewrite (graph_view_fields _ _ Hab), IH.
Qed.

Lemma annotate_keeps_graph_fields backend a :
  same_graph_fields (analysis (annotate set_list backend a)) a.
Proof.
  unfold annotate, same_graph_fields. simpl.
  destruct (SemanticInference.nonempty (functions a)); repeat split.
Qed.

End GraphFields.

Lemma graphs_agree_on_fields
    (set_list : list string -> list string) (gv : Graphviz) (sa sb : list FileAnalysis) :
  Forall2 same_graph_fields sa sb ->
  build_all_graphs set_list gv sa = build_all_graphs set_list gv sb.
Proof.
  intros H. rewrite <- (build_all_graphs_view set_list gv sa),
    <- (build_all_graphs_view set_list gv sb).
  by rewrite (graph_views_fields _ _ H).
Qed.

(** X13. The graph builders read nothing of an analysis but its path,
    imports, routes, components and recognised hooks: two collections that
    agree on these fields, file by file, give the same three graphs
    (adjacency and image), whatever their classes, functions, language or
    other fields are. *)
Theorem graphs_depend_on_graph_fields
    (set_list : list string -> list string) (gv : Graphviz) (sa sb : list FileAnalysis) :
  Forall2 same_graph_fields sa sb ->
  build_all_graphs set_list gv sa = build_all_graphs set_list gv sb.
Proof. apply graphs_agree_on_fields. Qed.

Lemma graphs_depend_on_graph_fields_witness :
  build_all_graphs insertion_order graphviz_without_binary
    [analysis_of "a.py" "Python" ["b"] [] [FnName "f"] []]
  = build_all_graphs insertion_order graphviz_without_binary
      [analysis_of "a.py" "Ruby" ["b"] [] [] []].
Proof.
  apply (graphs_depend_on_graph_fields insertion_order graphviz_without_binary
           [analysis_of "a.py" "Python" ["b"] [] [FnName "f"] []]
           [analysis_of "a.py" "Ruby" ["b"] [] [] []]).
  repeat constructor.
Defined.

(** X14. Annotating the analyses before the graphs are built does not
    change the graphs: the annotation step of the application fills in
    descriptions only, so the graphs built from the annotated dictionaries
    are the graphs of the analyses as extracted, for every backend. *)
Theorem annotation_leaves_graphs_unchanged
    (set_list : list string -> list string)
    (backend : option (SemanticInference.FuncInfo -> result string))
    (gv : Graphviz) (source_analysis : list FileAnalysis) :
  snd (Application.annotate_and_build set_list backend gv source_analysis)
  = build_all_graphs set_list gv source_analysis.
Proof.
  unfold Application.annotate_and_build. simpl.
  apply graphs_agree_on_fields.
  induction source_analysis as [|a sa IH]; simpl; [constructor|].
  constructor; [apply (annotate_keeps_graph_fields set_list backend a)|exact IH].
Qed.

(** * Further properties of the Python extractor *)

Section PythonExtractor.

Import StaticParser ParserVocabulary PyStr.

Lemma decorator_parts_chain (root : string) (attrs : list string) :
  decorator_parts (attribute_chain (Name root) attrs) = rev attrs ++ [root].
Proof.
  unfold attribute_chain.
  assert (H : forall base, decorator_parts (fold_left Attribute attrs base)
                           = rev attrs ++ decorator_parts base).
  { induction attrs as [|a attrs IH]; intros base; simpl; [done|].
    rewrite IH. simpl. by rewrite <- app_assoc. }
  apply H.
Qed.

Lemma decorator_parts_chain_other (base : expr) (attrs : list string) :
  decorator_parts base = [] ->
  decorator_parts (attribute_chain base attrs) = rev attrs.
Proof.
  intros Hbase. unfold attribute_chain.
  assert (H : forall b, decorator_parts (fold_left Attribute attrs b)
                        = rev attrs ++ decorator_parts b).
  { induction attrs as [|a attrs IH]; intros b; simpl; [done|].
    rewrite IH. simpl. by rewrite <- app_assoc. }
  by rewrite H, Hbase, app_nil_r.
Qed.

End PythonExtractor.

(** X15. [_get_decorator_string] flattens a chain of attribute accesses on
    a name, [root.a1...an], to the dotted text of its identifiers in source
    order; when the chain starts from a call, the call is dropped and only
    the attribute names remain. *)
Theorem decorator_string_flattens (root : string) (attrs : list string)
    (func : StaticParser.expr) (arguments : string) :
  StaticParser._get_decorator_string
    (ParserVocabulary.attribute_chain (StaticParser.Name root) attrs)
  = PyStr.join "." (root :: attrs)
  /\ StaticParser._get_decorator_string
       (ParserVocabulary.attribute_chain (StaticParser.Call func arguments) attrs)
     = PyStr.join "." attrs.
Proof.
  unfold StaticParser._get_decorator_string. split.
  - rewrite decorator_parts_chain, rev_app_distr, rev_involutive. reflexivity.
  - rewrite decorator_parts_chain_other by done. by rewrite rev_involutive.
Qed.

Section PythonRecords.

Import StaticParser ParserVocabulary PyStr.

Lemma split_not_nil (sep : ascii) (s : string) : split sep s <> [].
Proof.
  destruct s as [|c s]; simpl; [done|].
  destruct (Ascii.eqb c sep); [done|]. by destruct (split sep s).
Qed.

Lemma split_first_no_separator (sep : ascii) (s : string) :
  contains (String sep "") (split_first sep s) = false.
Proof.
  unfold split_first. induction s as [|c s IH]; [done|].
  cbn [split]. destruct (Ascii.eqb c sep) eqn:E; [done|].
  destruct (split sep s) as [|h r] eqn:S; [by destruct (split_not_nil sep s)|].
  cbn [hd] in *. cbn [contains startswith]. rewrite Ascii.eqb_sym, E. simpl. exact IH.
Qed.

Lemma function_description_bound (docstring : option string) :
  String.length (function_description docstring) <= 200
  /\ contains GraphBuilder.newline (function_description docstring) = false.
Proof.
  unfold function_description. destruct docstring as [d|]; [|split; [simpl; lia|done]].
  destruct (truthy d); [|split; [simpl; lia|done]]. split.
  - rewrite length_take. lia.
  - apply contains_take, split_first_no_separator.
Qed.

Lemma route_backed_by_more funcs extra route :
  route_backed_by funcs route -> route_backed_by (funcs ++ extra) route.
Proof.
  intros (d & dec & H & Hrest). exists d, dec. split; [|exact Hrest].
  apply in_or_app. by left.
Qed.

Lemma visit_function_python_result filename is_async name decorator_list lineno docstring r :
  python_result filename r ->
  python_result filename (visit_function is_async name decorator_list lineno docstring r).
Proof.
  intros (H1 & H2 & H3 & H4 & H5 & H6 & Hf & Hr).
  unfold python_result, visit_function. cbn [file_path language components exports hooks
    react_hooks functions routes]. repeat (split; [done|]). split.
  - apply Forall_app. split; [done|]. constructor; [|constructor]. simpl.
    destruct (function_description_bound docstring) as [B1 B2].
    eexists _, _, _, _. repeat split; [exact B1|exact B2].
  - apply Forall_app. split.
    + eapply Forall_impl; [exact Hr|]. intros route. apply route_backed_by_more.
    + apply Forall_forall. intros route Hroute.
      apply list_elem_of_In, in_map_iff in Hroute as (dec & <- & Hdec).
      apply list_elem_of_In, list_elem_of_filter in Hdec as [Hmark Hdec].
      apply list_elem_of_In in Hdec.
      eexists _, dec. split; [apply in_or_app; right; by left|]. simpl.
      repeat split; [done|]. by apply Is_true_true.
Qed.

Lemma visit_python_result filename r n :
  python_result filename r -> python_result filename (visit r n).
Proof.
  intros H. unfold visit. destruct (node_kind_of n); try exact H;
    try (by apply visit_function_python_result); exact H.
Qed.

Lemma walk_python_result filename nodes r :
  python_result filename r -> python_result filename (fold_left visit nodes r).
Proof.
  revert r. induction nodes as [|n nodes IH]; intros r H; simpl; [done|].
  by apply IH, visit_python_result.
Qed.

Lemma parse_python_result set_list ast_parse content filename :
  match parse_python set_list ast_parse content filename with
  | Ok r => python_result filename r
  | Raise _ => True
  end.
Proof.
  unfold parse_python.
  assert (H0 : python_result filename (empty_python_result filename)).
  { unfold python_result. simpl. repeat split; constructor. }
  destruct (ast_parse content filename) as [tree|[|msg]]; [|exact H0|done].
  exact (walk_python_result _ (ast_walk tree) _ H0).
Qed.

End PythonRecords.

(** X16. Whenever the Python extractor returns an analysis, it carries the
    given path and the language [Python], it has no components, exports or
    hooks, and every function entry is a dictionary with its decorators,
    async flag, line and description present, the description being one
    line of at most 200 characters. *)
Theorem python_analysis_is_well_formed
    (set_list : list string -> list string)
    (ast_parse : string -> string -> result StaticParser.node) (content filename : string) :
  match StaticParser.parse_python set_list ast_parse content filename with
  | Ok r =>
      file_path r = filename /\ language r = "Python"
      /\ components r = [] /\ exports r = [] /\ hooks r = [] /\ react_hooks r = []
      /\ Forall ParserVocabulary.python_function_record (functions r)
  | Raise _ => True
  end.
Proof.
  pose proof (parse_python_result set_list ast_parse content filename) as H.
  destruct (StaticParser.parse_python _ _ _ _) as [r|e]; [|done].
  destruct H as (H1 & H2 & H3 & H4 & H5 & H6 & H7 & _). by repeat split.
Qed.

(** X17. Every route the Python extractor records is backed by a function
    record of the same analysis: the route names that function, has its
    line, and its decorator text is one of the function's decorators and
    contains a route marker.  Such a route has neither method nor path. *)
Theorem python_routes_are_backed_by_functions
    (set_list : list string -> list string)
    (ast_parse : string -> string -> result StaticParser.node) (content filename : string) :
  match StaticParser.parse_python set_list ast_parse content filename with
  | Ok r => Forall (ParserVocabulary.route_backed_by (functions r)) (routes r)
  | Raise _ => True
  end.
Proof.
  pose proof (parse_python_result set_list ast_parse content filename) as H.
  destruct (StaticParser.parse_python _ _ _ _) as [r|e]; [|done].
  by destruct H as (_ & _ & _ & _ & _ & _ & _ & H).
Qed.

(** ** Every definition of the tree is collected once *)

Section Walk.

Import StaticParser ParserVocabulary.

Lemma node_rect_list (P : node -> Prop) :
  (forall k children, Forall P children -> P (Node k children)) ->
  forall n, P n.
Proof.
  intros H. fix IH 1. intros [k children]. apply H.
  induction children as [|c children IHc]; constructor; [apply IH|exact IHc].
Qed.

Lemma count_visited_app p (a b : list node) :
  count_visited p (a ++ b) = count_visited p a + count_visited p b.
Proof. unfold count_visited. by rewrite List.filter_app, length_app. Qed.

Lemma count_visited_zip p (a b : list (list node)) :
  count_visited p (concat (zip_levels a b))
  = count_visited p (concat a) + count_visited p (concat b).
Proof.
  revert b. induction a as [|x a IH]; intros b; [done|].
  destruct b as [|y b]; cbn [zip_levels concat].
  - change (count_visited p []) with 0. lia.
  - rewrite !count_visited_app, IH. lia.
Qed.

Lemma count_visited_levels p (n : node) :
  count_visited p (concat (levels n)) = count_kind p n.
Proof.
  induction n as [k children IH] using node_rect_list.
  cbn [levels count_kind concat]. rewrite count_visited_app. f_equal.
  - unfold count_visited. simpl. by destruct (p k).
  - induction IH as [|c children Hc _ IHcs]; [done|].
    cbn [map fold_right list_sum]. rewrite count_visited_zip, Hc. f_equal. exact IHcs.
Qed.

Lemma visit_counts r n :
  List.length (functions (visit r n))
  = List.length (functions r) + (if is_function_def (node_kind_of n) then 1 else 0)
  /\ List.length (classes (visit r n))
     = List.length (classes r) + (if is_class_def (node_kind_of n) then 1 else 0).
Proof.
  unfold visit. destruct (node_kind_of n); simpl; rewrite ?length_app; simpl; lia.
Qed.

Lemma walk_counts nodes r :
  List.length (functions (fold_left visit nodes r))
  = List.length (functions r) + count_visited is_function_def nodes
  /\ List.length (classes (fold_left visit nodes r))
     = List.length (classes r) + count_visited is_class_def nodes.
Proof.
  revert r. induction nodes as [|n nodes IH]; intros r.
  - unfold count_visited. simpl. lia.
  - cbn [fold_left]. destruct (IH (visit r n)) as [H1 H2].
    destruct (visit_counts r n) as [V1 V2]. rewrite H1, H2, V1, V2.
    unfold count_visited. simpl.
    destruct (is_function_def (node_kind_of n)), (is_class_def (node_kind_of n)); simpl; lia.
Qed.

End Walk.

(** X18. When the text parses, the Python extractor records exactly one
    function entry per function definition of the tree, plain or async,
    methods and nested functions included, and exactly one class entry per
    class definition. *)
Theorem python_extractor_collects_every_definition
    (set_list : list string -> list string)
    (ast_parse : string -> string -> result StaticParser.node)
    (content filename : string) (tree : StaticParser.node) :
  ast_parse content filename = Ok tree ->
  exists r,
    StaticParser.parse_python set_list ast_parse content filename = Ok r
    /\ List.length (functions r)
       = ParserVocabulary.count_kind ParserVocabulary.is_function_def tree
    /\ List.length (classes r)
       = ParserVocabulary.count_kind ParserVocabulary.is_class_def tree.
Proof.
  intros H. unfold StaticParser.parse_python. rewrite H. eexists. split; [reflexivity|].
  cbn [functions classes StaticParser.set_decorators].
  destruct (walk_counts (StaticParser.ast_walk tree) (StaticParser.empty_python_result filename))
    as [H1 H2].
  rewrite H1, H2. unfold StaticParser.ast_walk. by rewrite !count_visited_levels.
Qed.

Lemma python_extractor_collects_every_definition_witness :
  exists r,
    StaticParser.parse_python insertion_order (fun _ _ => Ok ParserVocabulary.nested_definitions)
                              "class C: ..." "c.py" = Ok r
    /\ List.length (functions r) = 3
    /\ List.length (classes r) = 1.
Proof.
  apply (python_extractor_collects_every_definition insertion_order
           (fun _ _ => Ok ParserVocabulary.nested_definitions) "class C: ..." "c.py"
           ParserVocabulary.nested_definitions).
  reflexivity.
Defined.

(** * Further properties of the extraction loop *)

Section ExtractionLoop.

Import StaticParser ParserVocabulary.

Variable set_list : list string -> list string.
Variable ast_parse : string -> string -> result node.
Variables parse_javascript parse_react _parse_generic : string -> string -> FileAnalysis.

Local Abbreviation analyze :=
  (analyze_all_sources set_list ast_parse parse_javascript parse_react _parse_generic).
Local Abbreviation step :=
  (analyze_step set_list ast_parse parse_javascript parse_react _parse_generic).

Lemma step_from_accumulator acc f :
  step (Ok acc) f = join_results (Ok acc) (step (Ok []) f).
Proof.
  unfold analyze_step, join_results.
  destruct (mem_str _ _ && has_content f); [|by rewrite app_nil_r].
  destruct (parse_source_file _ _ _ _ _ _ _) as [[parsed|]|e]; [done| |done].
  by rewrite app_nil_r.
Qed.

Lemma fold_from_accumulator files acc :
  fold_left step files (Ok acc) = join_results (Ok acc) (fold_left step files (Ok [])).
Proof.
  revert acc. induction files as [|f files IH]; intros acc; cbn [fold_left].
  - simpl. by rewrite app_nil_r.
  - rewrite (step_from_accumulator acc f).
    destruct (step (Ok []) f) as [r1|e]; simpl.
    + rewrite (IH (acc ++ r1)), (IH r1).
      destruct (fold_left step files (Ok [])) as [r2|e]; simpl; [|done].
      by rewrite app_assoc.
    + by rewrite (step_raise set_list ast_parse parse_javascript parse_react _parse_generic).
Qed.

Lemma analyze_app files1 files2 :
  analyze (files1 ++ files2) = join_results (analyze files1) (analyze files2).
Proof.
  unfold analyze_all_sources. rewrite fold_left_app.
  destruct (fold_left step files1 (Ok [])) as [r1|e]; simpl.
  - apply fold_from_accumulator.
  - apply step_raise.
Qed.

End ExtractionLoop.

(** X19. Files are analysed independently: the result for a collection
    split in two is the result for the first part followed by the result for
    the second, and an exception raised in either part is the exception of
    the whole, the first part's coming first. *)
Theorem analysis_of_concatenation
    (set_list : list string -> list string)
    (ast_parse : string -> string -> result StaticParser.node)
    (parse_javascript parse_react _parse_generic : string -> string -> FileAnalysis)
    (files1 files2 : list SourceFile) :
  StaticParser.analyze_all_sources set_list ast_parse parse_javascript parse_react _parse_generic
                                   (files1 ++ files2)
  = ParserVocabulary.join_results
      (StaticParser.analyze_all_sources set_list ast_parse parse_javascript parse_react
                                        _parse_generic files1)
      (StaticParser.analyze_all_sources set_list ast_parse parse_javascript parse_react
                                        _parse_generic files2).
Proof. apply analyze_app. Qed.

(** ** The extension gate and the dispatcher *)

Section ExtensionGate.

Import PyStr StaticParser.

Lemma contains_char_cons (c b : ascii) (s : string) :
  contains (String c "") (String b s) = Ascii.eqb c b || contains (String c "") s.
Proof. cbn [contains startswith]. by rewrite andb_true_r. Qed.

Lemma contains_char_append (c : ascii) (x y : string) :
  contains (String c "") (x +:+ y) = contains (String c "") x || contains (String c "") y.
Proof.
  induction x as [|b x IH]; [by destruct y|].
  rewrite append_cons, !contains_char_cons, IH. by rewrite orb_assoc.
Qed.

Lemma split_without_separator (sep : ascii) (s : string) :
  contains (String sep "") s = false -> split sep s = [s].
Proof.
  induction s as [|c s IH]; [done|]. rewrite contains_char_cons.
  intros [E H]%orb_false_iff. cbn [split]. rewrite Ascii.eqb_sym, E, (IH H). reflexivity.
Qed.

Lemma split_with_separator (sep : ascii) (s : string) :
  contains (String sep "") s = true -> exists h1 h2 r, split sep s = h1 :: h2 :: r.
Proof.
  induction s as [|c s IH]; [done|]. rewrite contains_char_cons. cbn [split].
  rewrite (Ascii.eqb_sym sep c). destruct (Ascii.eqb c sep) eqn:E; simpl.
  - intros _. destruct (split sep s) as [|h r] eqn:S; [by destruct (split_not_nil sep s)|].
    by exists "", h, r.
  - intros H. destruct (IH H) as (h1 & h2 & r & ->). by exists (String c h1), h2, r.
Qed.

Lemma split_last_skip (sep c : ascii) (s : string) :
  contains (String sep "") s = true -> split_last sep (String c s) = split_last sep s.
Proof.
  intros H. destruct (split_with_separator sep s H) as (h1 & h2 & r & E).
  unfold split_last. cbn [split]. rewrite E. by destruct (Ascii.eqb c sep).
Qed.

Lemma split_last_after_separator (sep : ascii) (a e : string) :
  contains (String sep "") e = false -> split_last sep (a +:+ String sep e) = e.
Proof.
  intros He. induction a as [|c a IH].
  - rewrite append_empty_l. unfold split_last. cbn [split].
    by rewrite Ascii.eqb_refl, (split_without_separator sep e He).
  - rewrite append_cons, split_last_skip; [exact IH|].
    rewrite contains_char_append, contains_char_cons, Ascii.eqb_refl. by rewrite orb_true_r.
Qed.

Lemma split_last_append (sep : ascii) (a b : string) :
  contains (String sep "") b = false ->
  split_last sep (a +:+ b) = split_last sep a +:+ b.
Proof.
  intros Hb. induction a as [|c a IH].
  - rewrite append_empty_l. unfold split_last. by rewrite (split_without_separator sep b Hb).
  - rewrite append_cons.
    destruct (contains (String sep "") a) eqn:Ha.
    + rewrite !split_last_skip; [exact IH|exact Ha|].
      by rewrite contains_char_append, Ha.
    + assert (Hab : contains (String sep "") (a +:+ b) = false)
        by (by rewrite contains_char_append, Ha, Hb).
      unfold split_last. cbn [split].
      rewrite (split_without_separator sep _ Hab), (split_without_separator sep _ Ha).
      by destruct (Ascii.eqb c sep).
Qed.

Lemma file_extension_of_suffix (pre e : string) :
  contains "." e = false -> contains "/" e = false ->
  file_extension (pre +:+ String "." e) = "." +:+ lower e.
Proof.
  intros H1 H2. unfold file_extension.
  rewrite split_last_append
    by (rewrite contains_char_cons; by rewrite H2).
  rewrite contains_char_append, contains_char_cons, Ascii.eqb_refl.
  rewrite orb_true_r. by rewrite split_last_after_separator.
Qed.

Lemma endswith_gate (e p : string) :
  contains "." e = false -> contains "/" e = false ->
  endswith (String "." e) p = true -> file_extension p = "." +:+ lower e.
Proof.
  intros H1 H2 [pre ->]%endswith_iff. by apply file_extension_of_suffix.
Qed.

Lemma has_strategy_passes_gate (p : string) :
  has_strategy p = true -> mem_str (file_extension p) source_extensions = true.
Proof.
  unfold has_strategy, endswith_any. cbn [existsb]. rewrite !orb_false_r.
  intros H. repeat (apply orb_true_iff in H as [H|H]);
    match type of H with
    | endswith (String _ ?e) _ = true => rewrite (endswith_gate e p eq_refl eq_refl H)
    end; reflexivity.
Qed.

End ExtensionGate.

(** X20. The extension gate of the loop never blocks a file the dispatcher
    can handle: a path that ends (letter case included) with one of the
    suffixes the dispatcher tests has its lower-cased extension among the
    source extensions. *)
Theorem dispatchable_files_pass_the_gate (p : string) :
  has_strategy p = true ->
  mem_str (StaticParser.file_extension p) StaticParser.source_extensions = true.
Proof. apply has_strategy_passes_gate. Qed.

Lemma dispatchable_files_pass_the_gate_witness :
  mem_str (StaticParser.file_extension "src/ui/App.tsx") StaticParser.source_extensions = true.
Proof. apply (dispatchable_files_pass_the_gate "src/ui/App.tsx"). reflexivity. Defined.

(** X21. A Python file that does not parse is not skipped: when its content
    is not empty and the parser rejects it with a syntax error, the loop
    emits one analysis for it, the one with empty collections. *)
Theorem unparseable_python_file_is_kept
    (set_list : list string -> list string)
    (ast_parse : string -> string -> result StaticParser.node)
    (parse_javascript parse_react _parse_generic : string -> string -> FileAnalysis)
    (p text : string) :
  PyStr.endswith ".py" p = true ->
  PyStr.truthy text = true ->
  ast_parse text p = Raise SyntaxError ->
  StaticParser.analyze_all_sources set_list ast_parse parse_javascript parse_react _parse_generic
                                   [mkSource p (Some text)]
  = Ok [StaticParser.empty_python_result p].
Proof.
  intros Hpy Htext Hparse.
  unfold StaticParser.analyze_all_sources, StaticParser.analyze_step. cbn [fold_left path content].
  rewrite has_strategy_passes_gate by (unfold has_strategy; by rewrite Hpy).
  unfold StaticParser.has_content. cbn [content]. rewrite Htext. cbn [andb].
  unfold StaticParser.parse_source_file. rewrite Hpy.
  unfold StaticParser.parse_python. by rewrite Hparse.
Qed.

Lemma unparseable_python_file_is_kept_witness :
  StaticParser.analyze_all_sources insertion_order rejecting_parser
    (finds_nothing "JavaScript") (finds_nothing "JavaScript") (finds_nothing "Java")
    [mkSource "pkg/bad.py" (Some "def f(:")]
  = Ok [StaticParser.empty_python_result "pkg/bad.py"].
Proof.
  apply (unparseable_python_file_is_kept insertion_order rejecting_parser
           (finds_nothing "JavaScript") (finds_nothing "JavaScript") (finds_nothing "Java")
           "pkg/bad.py" "def f(:"); reflexivity.
Defined.

(** * Further properties of the annotator *)

Section FunctionDescriptions.

Import PyStr SemanticInference AnnotatorVocabulary.

Lemma enhance_function_idempotent language func :
  enhance_function None language (enhance_function None language func)
  = enhance_function None language func.
Proof.
  destruct func as [d|s]; [|done]. cbn [enhance_function truthy].
  destruct (truthy (strip (default "" (fn_description d)))) eqn:E.
  - cbn [enhance_function]. by rewrite E.
  - destruct (truthy (_infer_function_purpose _ _ _)) eqn:T.
    + cbn [enhance_function set_description fn_description fn_name fn_decorators default
           option_map from_option truthy].
      destruct (truthy (strip (id _))); [reflexivity|]. rewrite T. reflexivity.
    + cbn [enhance_function truthy]. by rewrite E, T.
Qed.

Lemma strip_visible (c : ascii) (t : string) :
  is_space c = false -> truthy (strip (String c t)) = true.
Proof.
  intros H. unfold strip. cbn [lstrip]. rewrite H. cbn [rstrip].
  destruct (rstrip t); [by rewrite H|done].
Qed.

Lemma infer_visible func_name language decs :
  known_language language = true ->
  exists c t, _infer_function_purpose func_name language decs = String c t
              /\ is_space c = false.
Proof.
  unfold known_language, _infer_function_purpose. intros H.
  destruct (is_script language) eqn:S; destruct (String.eqb language "Python") eqn:P;
    try discriminate H;
    repeat match goal with
           | |- context [if ?b then _ else _] => destruct b
           end;
    rewrite ?append_cons; eexists _, _; split; reflexivity.
Qed.

Lemma enhance_function_described language func :
  known_language language = true -> described (enhance_function None language func).
Proof.
  intros H. destruct func as [d|s]; [|done]. cbn [enhance_function truthy].
  destruct (truthy (strip (default "" (fn_description d)))) eqn:E.
  - unfold described, blank. by rewrite E.
  - destruct (infer_visible (fn_name d) language (default [] (fn_decorators d)) H)
      as (c & t & -> & Hc).
    cbn [truthy]. unfold described, blank. cbn -[strip truthy].
    by rewrite (strip_visible c t Hc).
Qed.

End FunctionDescriptions.

(** X22. Enhancing is idempotent when the backend is absent: a second pass
    over an enhanced list changes nothing. *)
Theorem enhance_twice_is_enhance_once
    (functions : list FunctionEntry) (filename language : string) :
  SemanticInference.enhance_function_descriptions None
    (SemanticInference.enhance_function_descriptions None functions filename language)
    filename language
  = SemanticInference.enhance_function_descriptions None functions filename language.
Proof.
  unfold SemanticInference.enhance_function_descriptions.
  destruct functions as [|f fs]; [done|].
  cbn [map]. f_equal; [apply enhance_function_idempotent|].
  rewrite map_map. apply map_ext. intros x. apply enhance_function_idempotent.
Qed.

(** X23. For a JavaScript, TypeScript or Python file and an absent backend,
    no function dictionary is left without a description: after enhancing,
    the description of every dictionary entry is present and not blank. *)
Theorem enhance_describes_every_function
    (functions : list FunctionEntry) (filename language : string) :
  AnnotatorVocabulary.known_language language = true ->
  Forall AnnotatorVocabulary.described
         (SemanticInference.enhance_function_descriptions None functions filename language).
Proof.
  intros H. unfold SemanticInference.enhance_function_descriptions.
  destruct functions as [|f fs]; [constructor|].
  apply Forall_forall. intros x Hx.
  apply list_elem_of_In, in_map_iff in Hx as (y & <- & _).
  by apply enhance_function_described.
Qed.

Lemma enhance_describes_every_function_witness :
  Forall AnnotatorVocabulary.described
         (SemanticInference.enhance_function_descriptions None
            [FnDict (AnnotatorVocabulary.blank_function "zzz"); FnName "g"] "a.ts" "TypeScript").
Proof.
  apply (enhance_describes_every_function
           [FnDict (AnnotatorVocabulary.blank_function "zzz"); FnName "g"] "a.ts" "TypeScript").
  reflexivity.
Defined.

Section FileDescriptions.

Import PyStr SemanticInference.

Variable set_list : list string -> list string.

Lemma startswith_append (p x y : string) :
  startswith p x = true -> startswith p (x +:+ y) = true.
Proof.
  rewrite !startswith_iff. intros [t ->]. exists (t +:+ y). apply append_assoc.
Qed.

Lemma startswith_join (p sep x : string) (rest : list string) :
  startswith p x = true -> startswith p (join sep (x :: rest)) = true.
Proof.
  intros H. destruct rest as [|y rest]; [exact H|].
  change (join sep (x :: y :: rest)) with (x +:+ sep +:+ join sep (y :: rest)).
  by apply startswith_append.
Qed.

Lemma script_sentence_opening func :
  startswith "This " (script_function_sentence func) = true.
Proof. unfold script_function_sentence. by destruct (entry_is_async func). Qed.

Lemma python_sentence_opening func :
  startswith "This " (python_function_sentence func) = true.
Proof.
  unfold python_function_sentence.
  destruct (existsb _ _); [apply startswith_append|]; reflexivity.
Qed.

Lemma script_descriptions_opening file_analysis :
  functions file_analysis <> [] ->
  exists first rest,
    script_descriptions set_list file_analysis = first :: rest
    /\ startswith "This " first = true.
Proof.
  intros Hne. unfold script_descriptions.
  destruct (functions file_analysis) as [|f fs]; [done|].
  assert (H : startswith "This "
                (join " " (firstn 2 (map script_function_sentence (firstn 3 (f :: fs))))) = true).
  { cbn [firstn map]. destruct fs as [|g fs]; cbn [firstn map];
      apply startswith_join, script_sentence_opening. }
  cbn [firstn map nonempty] in *.
  destruct (nonempty (routes file_analysis)); [|by eexists _, _].
  destruct (nonempty (set_list _)); by eexists _, _.
Qed.

Lemma python_descriptions_opening file_analysis :
  functions file_analysis <> [] ->
  exists first rest,
    python_descriptions file_analysis = first :: rest
    /\ startswith "This " first = true.
Proof.
  intros Hne. unfold python_descriptions.
  destruct (functions file_analysis) as [|f fs]; [done|].
  assert (H : startswith "This "
                (join " " (firstn 2 (map python_function_sentence (firstn 3 (f :: fs))))) = true).
  { cbn [firstn map]. destruct fs as [|g fs]; cbn [firstn map];
      apply startswith_join, python_sentence_opening. }
  cbn [firstn map nonempty] in *.
  destruct (nonempty (routes file_analysis)); by eexists _, _.
Qed.

Lemma generic_description_opening language :
  startswith "This " (generic_description language) = true.
Proof.
  unfold generic_description.
  destruct (is_script language); [reflexivity|].
  destruct (String.eqb language "Python"); reflexivity.
Qed.

Lemma nonempty_true {A : Type} (l : list A) : nonempty l = true -> l <> [].
Proof. by destruct l. Qed.

Lemma generate_description_opening file_analysis :
  startswith "This " (generate_description set_list file_analysis) = true.
Proof.
  unfold generate_description.
  destruct (components file_analysis) as [|comp_name rest] eqn:E.
  - destruct (is_script (language file_analysis) && nonempty (functions file_analysis)) eqn:S.
    + apply andb_true_iff in S as [_ S]. apply nonempty_true in S.
      destruct (script_descriptions_opening file_analysis S) as (first & more & -> & H).
      cbn [nonempty]. by apply startswith_join.
    + destruct (String.eqb (language file_analysis) "Python"
                && nonempty (functions file_analysis)) eqn:P.
      * apply andb_true_iff in P as [_ P]. apply nonempty_true in P.
        destruct (python_descriptions_opening file_analysis P) as (first & more & -> & H).
        cbn [nonempty]. by apply startswith_join.
      * cbn [nonempty join]. apply generic_description_opening.
  - cbn [nonempty join]. rewrite component_description_shape.
    by apply startswith_append.
Qed.

End FileDescriptions.

(** X24. The file-level description is never empty: whatever the analysis,
    it begins with the word [This]; so the annotation step of the
    application always stores a [semantic_description]. *)
Theorem description_is_never_empty
    (set_list : list string -> list string)
    (backend : option (SemanticInference.FuncInfo -> result string))
    (file_analysis : FileAnalysis) :
  PyStr.startswith "This " (SemanticInference.generate_description set_list file_analysis) = true
  /\ Application.semantic_description (Application.annotate set_list backend file_analysis)
     = Some (SemanticInference.generate_description set_list file_analysis).
Proof.
  pose proof (generate_description_opening set_list file_analysis) as H.
  split; [exact H|]. unfold Application.annotate. cbn [Application.semantic_description].
  apply startswith_iff in H as [t ->]. reflexivity.
Qed.

(** X25. For a file without components, only the first two function entries
    count: the description is the one of the same analysis with its function
    list cut after two entries. *)
Theorem description_reads_two_functions
    (set_list : list string -> list string) (file_analysis : FileAnalysis) :
  components file_analysis = [] ->
  SemanticInference.generate_description set_list file_analysis
  = SemanticInference.generate_description set_list
      (Application.set_functions (firstn 2 (functions file_analysis)) file_analysis).
Proof.
  destruct file_analysis as [fp lang cls funcs comps imps rts decs exps hks rhks].
  cbn [components functions]. intros ->.
  destruct funcs as [|f1 [|f2 [|f3 funcs]]]; reflexivity.
Qed.

Lemma description_reads_two_functions_witness :
  SemanticInference.generate_description insertion_order
    (analysis_of "api.py" "Python" [] [] [FnName "a"; FnName "b"; FnName "c"] [])
  = SemanticInference.generate_description insertion_order
      (Application.set_functions
         (firstn 2 (functions (analysis_of "api.py" "Python" [] []
                                           [FnName "a"; FnName "b"; FnName "c"] [])))
         (analysis_of "api.py" "Python" [] [] [FnName "a"; FnName "b"; FnName "c"] [])).
Proof.
  apply (description_reads_two_functions insertion_order
           (analysis_of "api.py" "Python" [] [] [FnName "a"; FnName "b"; FnName "c"] [])).
  reflexivity.
Defined.

(** ** Pattern detection *)

Section Patterns.

Import PyStr CodePatterns AnnotatorVocabulary.

Lemma contains_embedded (x c pre post : string) :
  contains x (lower c) = true -> contains x (lower (pre +:+ c +:+ post)) = true.
Proof.
  intros H. rewrite !lower_append. by apply contains_append_r, contains_append_l.
Qed.

Lemma any_in_embedded (needles : list string) (c pre post : string) :
  any_in needles (lower c) = true -> any_in needles (lower (pre +:+ c +:+ post)) = true.
Proof.
  unfold any_in. rewrite !existsb_exists. intros (x & Hx & H).
  exists x. split; [done|by apply contains_embedded].
Qed.

Lemma truthy_embedded (c pre post : string) :
  truthy c = true -> truthy (pre +:+ c +:+ post) = true.
Proof. destruct pre; [|done]. by destruct c. Qed.

End Patterns.

(** X26. Pattern detection is monotone in the text: a flag raised for a
    text stays raised for any text that contains it, whatever the language
    argument, which is not read; the empty text raises no flag. *)
Theorem code_patterns_are_monotone (text before after language language' : string) :
  AnnotatorVocabulary.patterns_le
    (CodePatterns.analyze_code_patterns text language)
    (CodePatterns.analyze_code_patterns (before +:+ text +:+ after) language')
  /\ CodePatterns.analyze_code_patterns "" language = CodePatterns.no_patterns.
Proof.
  split; [|reflexivity].
  unfold CodePatterns.analyze_code_patterns.
  destruct (PyStr.truthy text) eqn:T; cbn [negb].
  - rewrite (truthy_embedded _ before after T). cbn [negb].
    unfold AnnotatorVocabulary.patterns_le.
    cbn [CodePatterns.has_async CodePatterns.has_api_calls CodePatterns.has_state_management
         CodePatterns.has_routing CodePatterns.has_database CodePatterns.has_validation].
    repeat split; try apply any_in_embedded.
    intros [H|H]%orb_true_iff; apply orb_true_iff; [left|right]; by apply contains_embedded.
  - unfold AnnotatorVocabulary.patterns_le. repeat split; discriminate.
Qed.

(** ** The local backend without a model *)

Section LocalBackend.

Import PyStr SemanticInference LocalInference AnnotatorVocabulary.

Lemma fallback_without_details func_name :
  _fallback_description func_name [] "" "" = fallback_sentence func_name.
Proof.
  unfold _fallback_description, fallback_sentence. cbn [nonempty truthy].
  by rewrite !append_assoc.
Qed.

Lemma generate_without_model has_transformers generator func_name language :
  has_transformers = false \/ generator = None ->
  generate_function_description has_transformers generator func_name language [] "" ""
  = fallback_sentence func_name.
Proof.
  intros H. unfold generate_function_description. rewrite fallback_without_details.
  destruct generator as [generate|]; [|done].
  destruct H as [->|H]; [done|discriminate H].
Qed.

End LocalBackend.

(** X27. When the backend module is importable but has no model (the
    [transformers] package is missing or the pipeline could not be set up),
    the name-based rule list is never reached: every dictionary entry with a
    blank description gets the backend's fallback sentence, which only
    quotes the function name. *)
Theorem backend_without_model_shadows_the_rules
    (has_transformers : bool) (generator : option (string -> result (list string)))
    (language : string) (d : FunctionDict) :
  has_transformers = false \/ generator = None ->
  blank d = true ->
  SemanticInference.enhance_function
    (Some (LocalInference.gen_func_desc has_transformers generator)) language (FnDict d)
  = FnDict (SemanticInference.set_description
              (AnnotatorVocabulary.fallback_sentence (fn_name d)) d).
Proof.
  intros Hmodel Hblank. unfold blank in Hblank. apply negb_true_iff in Hblank.
  cbn [SemanticInference.enhance_function]. rewrite Hblank.
  unfold LocalInference.gen_func_desc.
  cbn [SemanticInference.info_name SemanticInference.info_language].
  rewrite (generate_without_model _ _ _ _ Hmodel).
  unfold AnnotatorVocabulary.fallback_sentence. rewrite append_cons. reflexivity.
Qed.

Lemma backend_without_model_shadows_the_rules_witness :
  SemanticInference.enhance_function
    (Some (LocalInference.gen_func_desc false None)) "JavaScript"
    (FnDict (AnnotatorVocabulary.blank_function "getUser"))
  = FnDict (SemanticInference.set_description
              "The 'getUser' function performs specific operations within the codebase."
              (AnnotatorVocabulary.blank_function "getUser")).
Proof.
  apply (backend_without_model_shadows_the_rules false None "JavaScript"
           (AnnotatorVocabulary.blank_function "getUser")).
  - by left.
  - reflexivity.
Defined.

(** * Further properties of the graph builders *)

(** X28. [_render_graph] returns a path only after a successful rendering:
    the path is the requested name with [.png] in the temporary directory,
    and that file exists once the toolchain has returned. *)
Theorem rendered_image_exists (gv : Graphviz) (dot : Digraph) (name image : string) :
  _render_graph gv dot name = Some image ->
  GraphVocabulary.image_was_rendered gv dot name image.
Proof.
  unfold _render_graph, GraphVocabulary.image_was_rendered.
  destruct (gv_mkdtemp gv "repo_intel_") as [tmp_dir|]; [|done].
  destruct (gv_render gv dot _) as [exists_|] eqn:R; [|done].
  destruct (exists_ _) eqn:E; [|done]. intros [= <-].
  exists tmp_dir, exists_. by rewrite !append_assoc in *.
Qed.

Lemma rendered_image_exists_witness :
  GraphVocabulary.image_was_rendered GraphVocabulary.graphviz_working
    (new_digraph "API Routes") "api_routes" "/tmp/repo_intel_x1/api_routes.png".
Proof.
  apply (rendered_image_exists GraphVocabulary.graphviz_working (new_digraph "API Routes")
           "api_routes" "/tmp/repo_intel_x1/api_routes.png").
  reflexivity.
Defined.

Section EmptyGraphs.

Lemma collect_routes_none source_analysis :
  Forall (fun a => routes a = []) source_analysis -> collect_routes source_analysis = [].
Proof.
  unfold collect_routes. induction 1 as [|a sa Ha _ IH]; simpl; [done|]. by rewrite Ha, IH.
Qed.

Lemma collect_components_none source_analysis :
  Forall (fun a => components a = []) source_analysis ->
  collect_components source_analysis = ([], ∅).
Proof.
  intros H. unfold collect_components. generalize (([], ∅) : ComponentState).
  induction H as [|a sa Ha _ IH]; intros st; simpl; [done|].
  unfold register_components at 2. rewrite Ha. simpl. apply IH.
Qed.

End EmptyGraphs.

(** X29. A collection without routes has an empty route entry, and a
    collection without components an empty component entry, whatever the
    toolchain does: no image, no key in the adjacency. *)
Theorem graphs_without_material_are_empty
    (set_list : list string -> list string) (gv : Graphviz) (source_analysis : list FileAnalysis) :
  (Forall (fun a => routes a = []) source_analysis ->
   api_routes (build_all_graphs set_list gv source_analysis) = empty_entry)
  /\ (Forall (fun a => components a = []) source_analysis ->
      component_graph (build_all_graphs set_list gv source_analysis) = empty_entry).
Proof.
  split; intros H; unfold build_all_graphs; cbn [api_routes component_graph].
  - unfold build_route_flow_graph. by rewrite (collect_routes_none _ H).
  - unfold build_component_graph. by rewrite (collect_components_none _ H).
Qed.

Lemma graphs_without_material_are_empty_witness :
  api_routes (build_all_graphs insertion_order graphviz_broken two_imports_of_a) = empty_entry
  /\ component_graph (build_all_graphs insertion_order graphviz_broken two_imports_of_a)
     = empty_entry.
Proof.
  destruct (graphs_without_material_are_empty insertion_order graphviz_broken two_imports_of_a)
    as [H1 H2].
  split; [apply H1|apply H2]; repeat constructor.
Defined.

Section ImportBound.

Lemma resolve_import_at_most_one source_module mods imp_base :
  List.length (resolve_import source_module mods imp_base) <= 1.
Proof.
  unfold resolve_import. destruct (find _ mods) as [m|]; [|simpl; lia].
  destruct (String.eqb m source_module); simpl; lia.
Qed.

Lemma file_successors_bound mods analysis :
  List.length (file_successors mods analysis) <= List.length (imports analysis).
Proof.
  unfold file_successors. induction (imports analysis) as [|imp imps IH]; simpl; [lia|].
  rewrite length_app.
  pose proof (resolve_import_at_most_one (_path_to_module (file_path analysis)) mods
                                         (import_base imp)).
  lia.
Qed.

End ImportBound.

(** X30. In the module adjacency a file has at most one successor per
    import token: every successor list is at most as long as the import
    list of an analysed file with that module name. *)
Theorem module_successors_bounded_by_imports (source_analysis : list FileAnalysis) :
  map_Forall (fun N succs =>
                exists a, In a source_analysis /\ module_of a = N
                          /\ List.length succs <= List.length (imports a))
             (module_adjacency source_analysis).
Proof.
  intros N succs H.
  destruct (module_adjacency_explained _ _ _ H) as (a & Ha & HN & ->).
  exists a. split; [done|]. split; [done|]. apply file_successors_bound.
Qed.
